(** * Research-report evaluator: scoring pipeline and its fallbacks

    A shallow embedding of [evaluation/src/evaluator.py]: the heuristic
    criteria and claim extractors, the keyword-overlap fact checker, the
    scorer, the reviser and the orchestrating [generate_report]; then the
    search manager with its provider adapters, the stripping of code
    fences from a reply, and the exit status of [main].

    Modelling conventions.
    - A Python [str] is a [string] holding one character per code point
      below 256; [str.lower], [str.isspace] and the regex class [\w] follow
      CPython's tables on that range.
    - A Python [float] is an exact rational ([Q]); [int / int] is
      [Py.truediv], which is [None] where Python raises ZeroDivisionError.
      Rounding of binary64 arithmetic is outside the model.
    - A raised exception is [None] in the [option] monad.
    - The HTTP collaborators (the chat-completion endpoint and the search
      providers) are fields of an environment record [Env]; each
      language-model field stands for one [try] block up to the value the
      block returns, and is [None] when anything inside it raises.  A
      collaborator is a function of its request, and a reply is taken at
      the types the dataclasses declare.
    - The Markdown and HTML writers only format and are left out; the JSON
      writer is the record it dumps. *)

From Stdlib Require Import ZArith QArith Qabs Qminmax Lia Bool List.
From Stdlib Require Import Strings.Ascii Strings.String Numbers.DecimalString.
From Stdlib Require Import Lqa.
From stdpp Require Import base option list gmap sets strings.

Local Open Scope string_scope.
Local Open Scope nat_scope.

(** ** Python string primitives *)

Module Py.

Definition newline : string := String (ascii_of_nat 10) EmptyString.

(** [c.isspace()] on code points below 256. *)
Definition isspace (c : ascii) : bool :=
  let n := nat_of_ascii c in
  ((9 <=? n) && (n <=? 13)) || ((28 <=? n) && (n <=? 32))
  || (n =? 133) || (n =? 160).

(** One character of [str.lower()]: A-Z and the Latin-1 capitals. *)
Definition lower_char (c : ascii) : ascii :=
  let n := nat_of_ascii c in
  if ((65 <=? n) && (n <=? 90))
     || ((192 <=? n) && (n <=? 222) && negb (n =? 215))
  then ascii_of_nat (n + 32) else c.

Fixpoint lower (s : string) : string :=
  match s with
  | EmptyString => EmptyString
  | String c r => String (lower_char c) (lower r)
  end.

(** The regex class [\w] (Unicode mode) on code points below 256. *)
Definition isword (c : ascii) : bool :=
  let n := nat_of_ascii c in
  ((48 <=? n) && (n <=? 57)) || ((65 <=? n) && (n <=? 90)) || (n =? 95)
  || ((97 <=? n) && (n <=? 122))
  || (n =? 170) || (n =? 178) || (n =? 179) || (n =? 181) || (n =? 185)
  || (n =? 186) || (n =? 188) || (n =? 189) || (n =? 190)
  || ((192 <=? n) && (n <=? 255) && negb (n =? 215) && negb (n =? 247)).

(** [s.startswith(p)], returning the rest of [s] after [p]. *)
Fixpoint strip_prefix (p s : string) : option string :=
  match p, s with
  | EmptyString, _ => Some s
  | String a p', String b s' =>
      if Ascii.eqb a b then strip_prefix p' s' else None
  | String _ _, EmptyString => None
  end.

(** [needle in hay]. *)
Fixpoint contains (needle hay : string) : bool :=
  match strip_prefix needle hay with
  | Some _ => true
  | None =>
      match hay with
      | EmptyString => false
      | String _ r => contains needle r
      end
  end.

(** [s.count(c)] for a one-character [c]. *)
Fixpoint count_char (c : ascii) (s : string) : nat :=
  match s with
  | EmptyString => 0
  | String a r => (if Ascii.eqb a c then 1 else 0) + count_char c r
  end.

(** [s.split(c)] for a one-character separator: never empty, and keeps
    the empty pieces. *)
Fixpoint split_char (c : ascii) (s : string) : list string :=
  match s with
  | EmptyString => [EmptyString]
  | String a r =>
      if Ascii.eqb a c then EmptyString :: split_char c r
      else match split_char c r with
           | w :: ws => String a w :: ws
           | [] => [String a EmptyString]
           end
  end.

(** [s.lstrip()], [s.rstrip()], [s.strip()]. *)
Fixpoint lstrip (s : string) : string :=
  match s with
  | EmptyString => EmptyString
  | String a r => if isspace a then lstrip r else s
  end.

Fixpoint rstrip (s : string) : string :=
  match s with
  | EmptyString => EmptyString
  | String a r =>
      match rstrip r with
      | EmptyString => if isspace a then EmptyString else String a EmptyString
      | r' => String a r'
      end
  end.

Definition strip (s : string) : string := rstrip (lstrip s).

(** [s.split()]: the maximal runs of non-blank characters.  [cur] holds
    the run being read, in reverse. *)
Definition flush (cur : list ascii) (acc : list string) : list string :=
  match cur with
  | [] => acc
  | _ => string_of_list_ascii (rev cur) :: acc
  end.

Fixpoint split_ws_aux (s : string) (cur : list ascii) : list string :=
  match s with
  | EmptyString => flush cur []
  | String a r =>
      if isspace a then flush cur (split_ws_aux r [])
      else split_ws_aux r (a :: cur)
  end.

Definition split_ws (s : string) : list string := split_ws_aux s [].

(** [s[:n]]. *)
Fixpoint slice_to (n : nat) (s : string) : string :=
  match n, s with
  | O, _ => EmptyString
  | _, EmptyString => EmptyString
  | S k, String a r => String a (slice_to k r)
  end.

(** [str(n)] for a non-negative integer. *)
Definition str_of_nat (n : nat) : string :=
  NilZero.string_of_uint (Nat.to_uint n).

(** The longest prefix of [s] whose characters satisfy [p], and the rest. *)
Fixpoint span (p : ascii -> bool) (s : string) : string * string :=
  match s with
  | EmptyString => (EmptyString, EmptyString)
  | String a r =>
      if p a then let (w, t) := span p r in (String a w, t)
      else (EmptyString, s)
  end.

(** [a / b] on integers (of type [nat] here: every operand is a length
    or a count). *)
Definition truediv (a b : nat) : option Q :=
  match b with
  | O => None
  | S _ => Some (inject_Z (Z.of_nat a) / inject_Z (Z.of_nat b))%Q
  end.

(** [x < y] on floats. *)
Definition lt (x y : Q) : bool := negb (Qle_bool y x).

End Py.

(** ** Data model *)

Record Criteria := {
  goals : list string;
  constraints : list string;
  must_include : list string;
  nice_to_have : list string;
  disallowed : list string
}.

Record Claim := {
  claim_text : string;
  evidence_needed : string;
  priority : string
}.

(** A search hit: the dictionary with keys ['title'], ['url'], ['snippet']
    that every provider adapter builds. *)
Record SearchResult := {
  title : string;
  url : string;
  snippet : string
}.

Record FactCheckResult := {
  claim : string;
  verdict : string;
  confidence : Q;
  rationale : string;
  sources : list SearchResult
}.

Record EvaluationScore := {
  accuracy : Q;
  coverage : Q;
  citations_quality : Q;
  clarity_structure : Q;
  overall : Q
}.

(** [EvaluationScore.calculate_overall]: the assignment to [self.overall]
    is the record with that field replaced. *)
Definition calculate_overall (self : EvaluationScore) : EvaluationScore :=
  {| accuracy := accuracy self;
     coverage := coverage self;
     citations_quality := citations_quality self;
     clarity_structure := clarity_structure self;
     overall := (0.45 * accuracy self
                 + 0.30 * coverage self
                 + 0.15 * citations_quality self
                 + 0.10 * clarity_structure self)%Q |}.

(** ** The collaborators *)

(** What the fact-check [try] block reads from the decoded reply:
    [result.get('verdict')], [float(result.get('confidence'))] and
    [result.get('rationale')], each [None] when the key is absent. *)
Record FactCheckReply := {
  reply_verdict : option string;
  reply_confidence : option Q;
  reply_rationale : option string
}.

Record Env := {
  api_key : option string;
  (** [SearchManager.search(query, num_results)] *)
  search : string -> nat -> list SearchResult;
  (** the [try] block of [extract_criteria], by user query *)
  llm_criteria : string -> option Criteria;
  (** the [try] block of [extract_claims], by the draft text in the prompt *)
  llm_claims : string -> option (list Claim);
  (** the [try] block of [fact_check_claim], by claim and search results *)
  llm_fact_check : Claim -> list SearchResult -> option FactCheckReply;
  (** the [try] block of [auto_fix_draft], by the draft text in the prompt,
      the issues and the criteria *)
  llm_rewrite : string -> list FactCheckResult -> Criteria -> option string
}.

(** [not self.api_key]: unset or empty. *)
Definition no_api_key (env : Env) : bool :=
  match api_key env with
  | None => true
  | Some k => String.eqb k ""
  end.

(** ** ReportEvaluator *)

(** *** Criteria extraction *)

(** [re.findall(r'\b(?:include|cover|explain|describe)\s+(\w+)', s)].
    [match_at s] matches the pattern without its [\b] at the start of [s]
    and returns the captured group with the length of the whole match.
    The four verbs start with different letters, and blanks and word
    characters are disjoint, so the greedy match is the only one. *)
Definition trigger_verbs : list string :=
  ["include"; "cover"; "explain"; "describe"].

Fixpoint first_verb (verbs : list string) (s : string)
  : option (string * string) :=
  match verbs with
  | [] => None
  | v :: vs =>
      match Py.strip_prefix v s with
      | Some r => Some (v, r)
      | None => first_verb vs s
      end
  end.

Definition match_at (s : string) : option (string * nat) :=
  match first_verb trigger_verbs s with
  | None => None
  | Some (v, r) =>
      let (blanks, r1) := Py.span Py.isspace r in
      let (word, _) := Py.span Py.isword r1 in
      if (0 <? String.length blanks) && (0 <? String.length word)
      then Some (word, String.length v + String.length blanks
                       + String.length word)
      else None
  end.

(** The scan of [findall]: [prev_word] tells whether the character before
    the current position is a word character (so that [\b] fails before a
    letter), [skip] counts the characters still covered by the last match. *)
Fixpoint findall_from (s : string) (prev_word : bool) (skip : nat)
  : list string :=
  match s with
  | EmptyString => []
  | String a r =>
      match skip with
      | S k => findall_from r (Py.isword a) k
      | O =>
          if prev_word then findall_from r (Py.isword a) 0
          else match match_at s with
               | Some (word, len) =>
                   word :: findall_from r (Py.isword a) (len - 1)
               | None => findall_from r (Py.isword a) 0
               end
      end
  end.

Definition findall_must_include (s : string) : list string :=
  findall_from s false 0.

Definition _extract_criteria_basic (user_query : string) : Criteria :=
  let query_lower := Py.lower user_query in
  let goals0 : list string := [] in
  let goals1 :=
    if Py.contains "compare" query_lower
    then (goals0 ++ ["Provide comprehensive comparison"])%list else goals0 in
  let goals2 :=
    if Py.contains "best" query_lower
    then (goals1 ++ ["Identify best options with justification"])%list
    else goals1 in
  let goals3 :=
    if Py.contains "how" query_lower
    then (goals2 ++ ["Provide actionable instructions"])%list else goals2 in
  let must := findall_must_include query_lower in
  {| goals := match goals3 with
              | [] => ["Answer the user's question comprehensively"]
              | _ => goals3
              end;
     constraints := ["Be factual and accurate"; "Use credible sources"];
     must_include := must;
     nice_to_have := ["Recent information (2023-2024)";
                      "Multiple perspectives"];
     disallowed := ["Speculation without evidence"; "Outdated information"] |}.

Definition extract_criteria (env : Env) (user_query : string) : Criteria :=
  if no_api_key env then _extract_criteria_basic user_query
  else match llm_criteria env user_query with
       | Some criteria => criteria
       | None => _extract_criteria_basic user_query
       end.

(** *** Claim extraction *)

(** The loop body of [_extract_claims_basic]: strip the sentence and keep
    it when it is longer than 20 characters. *)
Definition claim_of_sentence (sentence : string) : option Claim :=
  let sentence := Py.strip sentence in
  if 20 <? String.length sentence
  then Some {| claim_text := sentence;
               evidence_needed := "Web search verification";
               priority := "medium" |}
  else None.

Definition _extract_claims_basic (draft : string) : list Claim :=
  let sentences := Py.split_char "." draft in
  let claims := omap claim_of_sentence (take 20 sentences) in
  take 10 claims.

Definition extract_claims (env : Env) (draft : string) : list Claim :=
  if no_api_key env then _extract_claims_basic draft
  else match llm_claims env (Py.slice_to 3000 draft) with
       | Some claims => claims
       | None => _extract_claims_basic draft
       end.

(** *** Fact checking *)

(** [set(s.lower().split())] *)
Definition word_set (s : string) : gset string :=
  list_to_set (Py.split_ws (Py.lower s)).

(** [len(claim_words & snippet_words) / len(claim_words)] *)
Definition overlap (claim_words snippet_words : gset string) : option Q :=
  Py.truediv (size (claim_words ∩ snippet_words)) (size claim_words).

(** The [for source in sources] loop, threading [match_count]. *)
Fixpoint count_matches (claim_words : gset string)
    (srcs : list SearchResult) (match_count : nat) : option nat :=
  match srcs with
  | [] => Some match_count
  | source :: rest =>
      let snippet_words := word_set (snippet source) in
      ov ← overlap claim_words snippet_words;
      count_matches claim_words rest
        (if Py.lt 0.3 ov then match_count + 1 else match_count)
  end.

Definition _fact_check_basic (c : Claim) (srcs : list SearchResult)
  : option FactCheckResult :=
  let claim_words := word_set (claim_text c) in
  match_count ← count_matches claim_words srcs 0;
  let '(v, conf, why) :=
    if 2 <=? match_count
    then ("supported", 0.7%Q,
          "Found " +:+ Py.str_of_nat match_count
            +:+ " sources with matching content")
    else if match_count =? 1
    then ("insufficient", 0.5%Q, "Limited evidence found")
    else ("insufficient", 0.3%Q, "No clear supporting evidence found") in
  Some {| claim := claim_text c;
          verdict := v;
          confidence := conf;
          rationale := why;
          sources := srcs |}.

Definition fact_check_claim (env : Env) (c : Claim) : option FactCheckResult :=
  let search_results := search env (claim_text c) 3 in
  if no_api_key env then _fact_check_basic c search_results
  else match llm_fact_check env c search_results with
       | Some result =>
           Some {| claim := claim_text c;
                   verdict := default "insufficient" (reply_verdict result);
                   confidence := default 0.5%Q (reply_confidence result);
                   rationale :=
                     default "Unable to determine" (reply_rationale result);
                   sources := search_results |}
       | None => _fact_check_basic c search_results
       end.

(** *** Scoring *)

(** The set of every source URL of every fact check. *)
Definition unique_sources (fact_checks : list FactCheckResult) : gset string :=
  fold_left
    (fun acc fc => fold_left (fun acc source => acc ∪ {[ url source ]})
                             (sources fc) acc)
    fact_checks ∅.

Definition score_report (draft : string) (criteria : Criteria)
    (fact_checks : list FactCheckResult) : option EvaluationScore :=
  (* Accuracy score based on fact-checking *)
  let supported :=
    length (List.filter (fun fc => String.eqb (verdict fc) "supported")
                        fact_checks) in
  let total_claims :=
    match fact_checks with [] => 1 | _ => length fact_checks end in
  acc_ratio ← Py.truediv supported total_claims;
  let accuracy := (acc_ratio * 5.0)%Q in
  (* Coverage score based on criteria *)
  let coverage_items :=
    match must_include criteria with
    | [] => 1
    | _ => length (must_include criteria)
    end in
  let covered :=
    length (List.filter
              (fun item => Py.contains (Py.lower item) (Py.lower draft))
              (must_include criteria)) in
  cov_ratio ← Py.truediv covered coverage_items;
  let coverage := (cov_ratio * 5.0)%Q in
  (* Citations quality *)
  src_ratio ← Py.truediv (size (unique_sources fact_checks)) 2;
  let citations_quality := Qmin src_ratio 5.0 in
  (* Clarity and structure *)
  let clarity_score := 3.0%Q in
  let clarity_score :=
    if (500 <? String.length draft) && (String.length draft <? 5000)
    then (clarity_score + 1.0)%Q else clarity_score in
  let clarity_score :=
    if 3 <? Py.count_char "#" draft
    then (clarity_score + 1.0)%Q else clarity_score in
  let score := {| accuracy := accuracy;
                  coverage := coverage;
                  citations_quality := citations_quality;
                  clarity_structure := Qmin clarity_score 5.0;
                  overall := 0.0 |} in
  Some (calculate_overall score).

(** *** Revision *)

Definition _auto_fix_basic (draft : string)
    (fact_checks : list FactCheckResult) : string :=
  let fixed := draft in
  (* Add fact-check warnings for disputed claims *)
  let fixed :=
    fold_left
      (fun fixed fc =>
         if String.eqb (verdict fc) "contradicted"
         then fixed +:+ Py.newline +:+ "**Note**: The claim '"
                +:+ Py.slice_to 50 (claim fc)
                +:+ "...' may need verification." +:+ Py.newline
         else fixed)
      fact_checks fixed in
  (* Add sources section if not present *)
  if negb (Py.contains "## Sources" fixed)
     && negb (Py.contains "## References" fixed)
  then
    let fixed := fixed +:+ Py.newline +:+ Py.newline +:+ "## Sources"
                   +:+ Py.newline in
    fold_left
      (fun fixed '(i, fc) =>
         match sources fc with
         | [] => fixed
         | first :: _ =>
             fixed +:+ "[" +:+ Py.str_of_nat i +:+ "] " +:+ url first
               +:+ Py.newline
         end)
      (imap (fun i fc => (i + 1, fc)) (take 5 fact_checks)) fixed
  else fixed.

Definition auto_fix_draft (env : Env) (draft : string) (criteria : Criteria)
    (fact_checks : list FactCheckResult) : string :=
  if no_api_key env then _auto_fix_basic draft fact_checks
  else
    let issues :=
      List.filter (fun fc => negb (String.eqb (verdict fc) "supported"))
                  fact_checks in
    match llm_rewrite env (Py.slice_to 2000 draft) issues criteria with
    | Some text => text
    | None => _auto_fix_basic draft fact_checks
    end.

(** *** The pipeline *)

(** The dictionary [_save_json_report] dumps, without its timestamp. *)
Record JsonReport := {
  json_query : string;
  json_score : EvaluationScore;
  json_criteria : Criteria;
  json_fact_checks : list FactCheckResult;
  original_draft_length : nat;
  fixed_draft_length : option nat;
  auto_fixed : bool
}.

Definition _save_json_report (query original fixed : string)
    (criteria : Criteria) (fact_checks : list FactCheckResult)
    (score : EvaluationScore) : JsonReport :=
  {| json_query := query;
     json_score := score;
     json_criteria := criteria;
     json_fact_checks := fact_checks;
     original_draft_length := String.length original;
     fixed_draft_length :=
       if String.eqb fixed original then None
       else Some (String.length fixed);
     auto_fixed := Py.lt (overall score) 3.5 |}.

(** The progress banners [generate_report] prints, one per stage entered. *)
Inductive Stage :=
| ExtractCriteria      (* [1/6] *)
| ExtractClaims        (* [2/6] *)
| FactCheck            (* [3/6] *)
| Score                (* [4/6] *)
| AutoFix              (* [5/6] *)
| WriteReports.        (* [6/6] *)

Global Instance Stage_eq_dec : EqDecision Stage.
Proof. solve_decision. Defined.

Record Report := {
  report_score : EvaluationScore;
  report_criteria : Criteria;
  report_fact_checks : list FactCheckResult;
  fixed_draft : string;
  report_json : JsonReport;
  stages : list Stage
}.

Definition generate_report (env : Env) (user_query draft : string)
  : option Report :=
  (* Step 1: Extract criteria *)
  let criteria := extract_criteria env user_query in
  (* Step 2: Extract claims *)
  let claims := extract_claims env draft in
  (* Step 3: Fact-check claims *)
  fact_checks ← mapM (fact_check_claim env) (take 10 claims);
  (* Step 4: Score the report *)
  score ← score_report draft criteria fact_checks;
  (* Step 5: Auto-fix if needed *)
  let '(fixed, log5) :=
    if Py.lt (overall score) 3.5
    then (auto_fix_draft env draft criteria fact_checks, [AutoFix])
    else (draft, []) in
  (* Generate outputs *)
  Some {| report_score := score;
          report_criteria := criteria;
          report_fact_checks := fact_checks;
          fixed_draft := fixed;
          report_json :=
            _save_json_report user_query draft fixed criteria fact_checks
                              score;
          stages := [ExtractCriteria; ExtractClaims; FactCheck; Score]
                      ++ log5 ++ [WriteReports] |}.

(** ** Specification-side quantities *)

(** [max(1, n)]: the floored denominator of the spec. *)
Definition floor1 (n : nat) : nat := Nat.max 1 n.

Definition supported_count (fact_checks : list FactCheckResult) : nat :=
  length (List.filter (fun fc => String.eqb (verdict fc) "supported")
                      fact_checks).

Definition covered_count (draft : string) (items : list string) : nat :=
  length (List.filter
            (fun item => Py.contains (Py.lower item) (Py.lower draft)) items).

Definition ratio (a b : nat) : Q :=
  (inject_Z (Z.of_nat a) / inject_Z (Z.of_nat b))%Q.

Definition weighted_sum (score : EvaluationScore) : Q :=
  (0.45 * accuracy score + 0.30 * coverage score
   + 0.15 * citations_quality score + 0.10 * clarity_structure score)%Q.

Definition bonus (b : bool) : Q := if b then 1.0%Q else 0%Q.

Definition clarity_spec (draft : string) : Q :=
  Qmin (3.0 + bonus ((500 <? String.length draft)
                     && (String.length draft <? 5000))
            + bonus (3 <? Py.count_char "#" draft)) 5.0.

(** The clarity accumulator of [score_report] before the final clamp. *)
Definition clarity_steps (draft : string) : Q :=
  let c0 := 3.0%Q in
  let c1 := if (500 <? String.length draft) && (String.length draft <? 5000)
            then (c0 + 1.0)%Q else c0 in
  if 3 <? Py.count_char "#" draft then (c1 + 1.0)%Q else c1.

(** The reply the fact-check [try] block obtained, if it ran and succeeded. *)
Definition ai_reply (env : Env) (c : Claim) : option FactCheckReply :=
  if no_api_key env then None
  else llm_fact_check env c (search env (claim_text c) 3).

(** Whether the overlap ratio of a source is defined and exceeds 0.3. *)
Definition exceeds (claim_words : gset string) (source : SearchResult) : bool :=
  match overlap claim_words (word_set (snippet source)) with
  | Some ov => Py.lt 0.3 ov
  | None => false
  end.

Definition matching_sources (c : Claim) (srcs : list SearchResult) : nat :=
  length (List.filter (exceeds (word_set (claim_text c))) srcs).

(** A claim text with at least one whitespace-separated word. *)
Definition has_word (c : Claim) : Prop := Py.split_ws (claim_text c) <> [].

(** ** Concrete environments *)

(** [SearchManager._mock_search]: what [search] returns when no provider is
    configured. *)
Definition _mock_search (query : string) : list SearchResult :=
  [ {| title := "Example Result 1";
       url := "https://example.com/1";
       snippet := "This is a relevant result about " +:+ query |};
    {| title := "Example Result 2";
       url := "https://example.com/2";
       snippet := "Another source discussing " +:+ query |} ].

(** No API key and no search provider. *)
Definition no_credentials : Env :=
  {| api_key := None;
     search := fun query _ => _mock_search query;
     llm_criteria := fun _ => None;
     llm_claims := fun _ => None;
     llm_fact_check := fun _ _ => None;
     llm_rewrite := fun _ _ _ => None |}.

Definition sample_claim : Claim :=
  {| claim_text := "PostgreSQL supports JSON columns";
     evidence_needed := "Web search verification";
     priority := "medium" |}.

(** An API key, and a model that answers the fact-check prompt with
    [{"verdict": "supported", "confidence": 7, "rationale": "certain"}]. *)
Definition overconfident_env : Env :=
  {| api_key := Some "sk-test";
     search := fun query _ => _mock_search query;
     llm_criteria := fun _ => None;
     llm_claims := fun _ => None;
     llm_fact_check := fun _ _ =>
       Some {| reply_verdict := Some "supported";
               reply_confidence := Some 7%Q;
               reply_rationale := Some "certain" |};
     llm_rewrite := fun _ _ _ => None |}.

(** An API key, and a model that answers the claim-extraction prompt with
    a JSON array of eleven well-formed claim objects. *)
Definition eleven_claims : list Claim :=
  map (fun i => {| claim_text := "Claim number " +:+ Py.str_of_nat i;
                   evidence_needed := "A citation";
                   priority := "high" |})
      (seq 1 11).

Definition verbose_env : Env :=
  {| api_key := Some "sk-test";
     search := fun query _ => _mock_search query;
     llm_criteria := fun _ => None;
     llm_claims := fun _ => Some eleven_claims;
     llm_fact_check := fun _ _ => None;
     llm_rewrite := fun _ _ _ => None |}.

(** A claim without any word, and one search hit. *)
Definition blank_claim : Claim :=
  {| claim_text := "   ";
     evidence_needed := "Web search verification";
     priority := "medium" |}.

Definition one_hit : list SearchResult :=
  [ {| title := "Example Result 1";
       url := "https://example.com/1";
       snippet := "This is a relevant result" |} ].

(** An API key, a model that extracts one claim whose text is blank, and a
    fact-check request that fails (a timeout, a non-2xx status). *)
Definition flaky_env : Env :=
  {| api_key := Some "sk-test";
     search := fun _ _ => one_hit;
     llm_criteria := fun _ => None;
     llm_claims := fun _ => Some [blank_claim];
     llm_fact_check := fun _ _ => None;
     llm_rewrite := fun _ _ _ => None |}.

(** An API key and a model under which the pipeline scores exactly 4.0:
    five claims of which four are judged supported (accuracy 4.0), the one
    required topic covered (coverage 5.0), four distinct source URLs
    (citations 2.0) and a short draft with more than three ['#']
    (clarity 4.0). *)
Definition hit (name : string) : SearchResult :=
  {| title := name;
     url := "https://example.com/" +:+ name;
     snippet := "About " +:+ name |}.

Definition scenario6_draft : string :=
  "# Databases ## PostgreSQL ## SQLite: both are relational.".

Definition scenario6_env : Env :=
  {| api_key := Some "sk-test";
     search := fun query _ =>
       if String.eqb query "Claim number 1" then [hit "a"; hit "b"]
       else [hit "c"; hit "d"];
     llm_criteria := fun _ =>
       Some {| goals := ["Compare databases"];
               constraints := [];
               must_include := ["PostgreSQL"];
               nice_to_have := [];
               disallowed := [] |};
     llm_claims := fun _ => Some (take 5 eleven_claims);
     llm_fact_check := fun c _ =>
       Some {| reply_verdict :=
                 Some (if String.eqb (claim_text c) "Claim number 5"
                       then "contradicted" else "supported");
               reply_confidence := Some 0.9%Q;
               reply_rationale := None |};
     llm_rewrite := fun _ _ _ => Some "rewritten" |}.

(** Drafts of a given length: [n] copies of a letter, and four ['#']
    followed by letters. *)
Definition letters (n : nat) : string :=
  string_of_list_ascii (repeat "a"%char n).

Definition draft200 : string := letters 200.

Definition draft1000 : string := "####" +:+ letters 996.

(** ** The rest of the program *)

(** *** Stripping the Markdown code fence of a reply *)

(** [s.split(sep)] for a separator of any positive length: the pieces
    between the non-overlapping occurrences of [sep], found left to right.
    [skip] counts the characters of the occurrence being stepped over and
    [cur] holds the piece being read, in reverse. *)
Fixpoint split_str_aux (sep s : string) (skip : nat) (cur : list ascii)
  : list string :=
  match s with
  | EmptyString => [string_of_list_ascii (rev cur)]
  | String a r =>
      match skip with
      | S k => split_str_aux sep r k cur
      | O =>
          match Py.strip_prefix sep s with
          | Some _ =>
              string_of_list_ascii (rev cur)
              :: split_str_aux sep r (String.length sep - 1) []
          | None => split_str_aux sep r 0 (a :: cur)
          end
      end
  end.

Definition split_str (sep s : string) : list string :=
  split_str_aux sep s 0 [].

Definition fence : string := "```".

Definition json_fence : string := "```json".

(** The block under [# Clean the response text to extract JSON], shared by
    the three JSON-returning calls; an index out of range is [None]. *)
Definition clean_response (text : string) : option string :=
  if Py.contains json_fence text then
    after ← split_str json_fence text !! 1;
    body ← split_str fence after !! 0;
    Some (Py.strip body)
  else if Py.contains fence text then
    after ← split_str fence text !! 1;
    body ← split_str fence after !! 0;
    Some (Py.strip body)
  else Some text.

(** *** SearchManager *)

Inductive SearchProvider := TAVILY | SERPAPI | BING | GOOGLE.

(** The environment variables the program reads; [None] is an unset one. *)
Record Environ := {
  OPENAI_API_KEY : option string;
  TAVILY_API_KEY : option string;
  SERPAPI_KEY : option string;
  BING_API_KEY : option string;
  GOOGLE_API_KEY : option string;
  GOOGLE_CSE_ID : option string
}.

(** Truth value of [os.getenv(name)]: set and not empty. *)
Definition is_set (v : option string) : bool :=
  match v with
  | Some (String _ _) => true
  | _ => false
  end.

Definition _detect_available_providers (os : Environ) : list SearchProvider :=
  let providers : list SearchProvider := [] in
  let providers :=
    if is_set (TAVILY_API_KEY os) then (providers ++ [TAVILY])%list
    else providers in
  let providers :=
    if is_set (SERPAPI_KEY os) then (providers ++ [SERPAPI])%list
    else providers in
  let providers :=
    if is_set (BING_API_KEY os) then (providers ++ [BING])%list
    else providers in
  let providers :=
    if is_set (GOOGLE_API_KEY os) && is_set (GOOGLE_CSE_ID os)
    then (providers ++ [GOOGLE])%list else providers in
  providers.

(** The search endpoints.  Each field is one request with its decoded JSON
    body: [None] when the request, its status check or the decoding raises,
    otherwise the list the adapter iterates over ([None] inside when the key
    holding it is missing).  A result item is a dictionary from strings to
    strings. *)
Record Web := {
  (** [data.get('items')] of the Custom Search reply, by [q] and [num] *)
  google_api : string -> nat -> option (option (list (gmap string string)));
  (** [data.get('results')] of the Tavily reply, by [query], [max_results] *)
  tavily_api : string -> nat -> option (option (list (gmap string string)));
  (** [data.get('organic_results')] of the SerpAPI reply, by [q], [num] *)
  serpapi_api : string -> nat -> option (option (list (gmap string string)));
  (** [data.get('webPages')] and inside it [.get('value')] of the Bing
      reply, by [q] and [count] *)
  bing_api :
    string -> nat -> option (option (option (list (gmap string string))))
}.

(** [d.get(key, '')] *)
Definition get_str (d : gmap string string) (key : string) : string :=
  default "" (d !! key).

Definition _search_google (web : Web) (query : string) (num_results : nat)
  : list SearchResult :=
  match google_api web query (Nat.min num_results 10) with
  | Some data =>
      map (fun item => {| title := get_str item "title";
                          url := get_str item "link";
                          snippet := get_str item "snippet" |})
          (default [] data)
  | None => []
  end.

Definition _search_tavily (web : Web) (query : string) (num_results : nat)
  : list SearchResult :=
  match tavily_api web query num_results with
  | Some data =>
      map (fun result =>
             {| title := get_str result "title";
                url := get_str result "url";
                snippet := Py.slice_to 200 (get_str result "content") |})
          (default [] data)
  | None => []
  end.

Definition _search_serpapi (web : Web) (query : string) (num_results : nat)
  : list SearchResult :=
  match serpapi_api web query num_results with
  | Some data =>
      map (fun result => {| title := get_str result "title";
                            url := get_str result "link";
                            snippet := get_str result "snippet" |})
          (default [] data)
  | None => []
  end.

Definition _search_bing (web : Web) (query : string) (num_results : nat)
  : list SearchResult :=
  match bing_api web query num_results with
  | Some data =>
      map (fun result => {| title := get_str result "name";
                            url := get_str result "url";
                            snippet := get_str result "snippet" |})
          (default [] (default (Some []) data))
  | None => []
  end.

(** [SearchManager.search], on the provider list computed at construction. *)
Definition SearchManager_search (providers : list SearchProvider) (web : Web)
    (query : string) (num_results : nat) : list SearchResult :=
  match providers with
  | [] => _mock_search query
  | provider :: _ =>
      match provider with
      | GOOGLE => _search_google web query num_results
      | TAVILY => _search_tavily web query num_results
      | SERPAPI => _search_serpapi web query num_results
      | BING => _search_bing web query num_results
      end
  end.

(** *** Construction and command line *)




(** *** Quantities of the further properties *)

(** The URLs of all sources of all fact checks, in order. *)
Definition all_urls (fact_checks : list FactCheckResult) : list string :=
  concat (map (fun fc => map url (sources fc)) fact_checks).

(** No backquote in a text. *)
Definition no_backquote (s : string) : Prop := Py.count_char "`" s = 0.

(** Every character of a text is a word character. *)
Fixpoint all_word (s : string) : bool :=
  match s with
  | EmptyString => true
  | String a r => Py.isword a && all_word r
  end.




(** What the heuristic checker answers for a claim against the mock
    results of its own text. *)
Definition mock_result (c : Claim) : FactCheckResult :=
  {| claim := claim_text c;
     verdict := "supported";
     confidence := 0.7%Q;
     rationale := "Found 2 sources with matching content";
     sources := _mock_search (claim_text c) |}.


(** The text before the first occurrence of [sep] (all of it when there is
    none), and the text after that occurrence. *)
Fixpoint before_first (sep s : string) : string :=
  match Py.strip_prefix sep s with
  | Some _ => EmptyString
  | None =>
      match s with
      | EmptyString => EmptyString
      | String a r => String a (before_first sep r)
      end
  end.

Fixpoint after_first (sep s : string) : option string :=
  match Py.strip_prefix sep s with
  | Some r => Some r
  | None =>
      match s with
      | EmptyString => None
      | String _ r => after_first sep r
      end
  end.

(** * Properties *)

(** ** Sanity checks of the string primitives *)

Example split_char_keeps_empty :
  Py.split_char "." "a..b." = ["a"; ""; "b"; ""].
Proof. reflexivity. Qed.

Example split_ws_drops_blanks : Py.split_ws " a  b " = ["a"; "b"].
Proof. reflexivity. Qed.

Example strip_both_ends : Py.strip "  a b  " = "a b".
Proof. reflexivity. Qed.

Example findall_nonoverlapping :
  findall_must_include
    "please include  foo, cover bar_9 and uncover baz; describe. cover  include describe x"
  = ["foo"; "bar_9"; "include"; "x"].
Proof. vm_compute. reflexivity. Qed.

(** ** Arithmetic helpers *)

Lemma truediv_pos a b : b <> 0 -> Py.truediv a b = Some (ratio a b).
Proof. destruct b; [congruence | reflexivity]. Qed.

Lemma lt_spec x y : Py.lt x y = true <-> (x < y)%Q.
Proof.
  unfold Py.lt. rewrite negb_true_iff. split.
  - intros H. apply Qnot_le_lt. intros Hle.
    apply Qle_bool_iff in Hle. congruence.
  - intros H. destruct (Qle_bool y x) eqn:E; [|reflexivity].
    apply Qle_bool_iff in E. exfalso. eapply Qlt_not_le; eauto.
Qed.

Lemma ratio_unit a b : a <= b -> 0 < b -> (0 <= ratio a b <= 1)%Q.
Proof.
  intros Hab Hb. unfold ratio.
  assert (Hpos : (0 < inject_Z (Z.of_nat b))%Q).
  { change 0%Q with (inject_Z 0). rewrite <- Zlt_Qlt. lia. }
  split.
  - apply Qle_shift_div_l; [exact Hpos|]. rewrite Qmult_0_l.
    change 0%Q with (inject_Z 0). rewrite <- Zle_Qle. lia.
  - apply Qle_shift_div_r; [exact Hpos|]. rewrite Qmult_1_l.
    rewrite <- Zle_Qle. lia.
Qed.

Lemma ratio_times5 a b :
  a <= b -> 0 < b -> (0 <= ratio a b * 5.0 <= 5.0)%Q.
Proof.
  intros Hab Hb. destruct (ratio_unit a b Hab Hb) as [H0 H1]. split.
  - apply Qmult_le_0_compat; [exact H0 | discriminate].
  - apply Qle_trans with (1 * 5.0)%Q.
    + apply Qmult_le_compat_r; [exact H1 | discriminate].
    + discriminate.
Qed.

Lemma floor1_pos n : 0 < floor1 n.
Proof. unfold floor1. lia. Qed.

Lemma floor1_list {A} (l : list A) :
  match l with [] => 1 | _ => length l end = floor1 (length l).
Proof. destruct l; reflexivity. Qed.

Lemma filter_le_floor1 {A} (p : A -> bool) (l : list A) :
  length (List.filter p l) <= floor1 (length l).
Proof.
  pose proof (List.filter_length_le p l). unfold floor1. lia.
Qed.

(** ** The scorer *)

(** [score_report] never raises: both guarded denominators are at least 1,
    and its result is [calculate_overall] of the four components. *)
Lemma score_report_unfold draft criteria fact_checks :
  score_report draft criteria fact_checks =
  Some (calculate_overall
          {| accuracy :=
               (ratio (supported_count fact_checks)
                      (floor1 (length fact_checks)) * 5.0)%Q;
             coverage :=
               (ratio (covered_count draft (must_include criteria))
                      (floor1 (length (must_include criteria))) * 5.0)%Q;
             citations_quality :=
               Qmin (ratio (size (unique_sources fact_checks)) 2) 5.0;
             clarity_structure := Qmin (clarity_steps draft) 5.0;
             overall := 0.0 |}).
Proof.
  unfold score_report. rewrite !floor1_list.
  rewrite (truediv_pos _ (floor1 (length fact_checks)))
    by (pose proof (floor1_pos (length fact_checks)); lia).
  cbn [mbind option_bind].
  rewrite (truediv_pos _ (floor1 (length (must_include criteria))))
    by (pose proof (floor1_pos (length (must_include criteria))); lia).
  cbn [mbind option_bind].
  reflexivity.
Qed.

Lemma clarity_steps_spec draft :
  (Qmin (clarity_steps draft) 5.0 == clarity_spec draft)%Q.
Proof.
  unfold clarity_steps, clarity_spec, bonus.
  destruct ((500 <? String.length draft) && (String.length draft <? 5000));
    destruct (3 <? Py.count_char "#" draft); reflexivity.
Qed.

Lemma clarity_spec_range draft : (3.0 <= clarity_spec draft <= 5.0)%Q.
Proof.
  unfold clarity_spec, bonus.
  destruct ((500 <? String.length draft) && (String.length draft <? 5000));
    destruct (3 <? Py.count_char "#" draft); split; discriminate.
Qed.

(** C1: whatever the draft, the criteria and the fact checks, [score_report]
    returns a score whose [overall] is 0.45*accuracy + 0.30*coverage +
    0.15*citations_quality + 0.10*clarity_structure of that same score
    (equal, hence within 1e-9): it is recomputed from the four components. *)
Theorem score_report_overall_is_weighted_sum :
  forall draft criteria fact_checks,
  exists score,
    score_report draft criteria fact_checks = Some score
    /\ overall score = weighted_sum score
    /\ (Qabs (overall score - weighted_sum score) <= 1 # 1000000000)%Q.
Proof.
  intros draft criteria fact_checks. eexists. split.
  - apply score_report_unfold.
  - split; [reflexivity|].
    unfold weighted_sum, calculate_overall.
    cbn [overall accuracy coverage citations_quality clarity_structure].
    match goal with |- (Qabs (?x - ?x) <= _)%Q =>
      assert (E : (x - x == 0)%Q) by ring; rewrite E end.
    discriminate.
Qed.

(** C2: [score_report] returns a score (no division by zero, also for an
    empty [fact_checks] or an empty [must_include]) whose accuracy is
    (supported / max(1, len(fact_checks))) * 5.0 and whose coverage is
    (covered / max(1, len(must_include))) * 5.0, both within [0,5]. *)
Theorem score_report_accuracy_coverage :
  forall draft criteria fact_checks,
  exists score,
    score_report draft criteria fact_checks = Some score
    /\ accuracy score
       = (ratio (supported_count fact_checks)
                (Nat.max 1 (length fact_checks)) * 5.0)%Q
    /\ coverage score
       = (ratio (covered_count draft (must_include criteria))
                (Nat.max 1 (length (must_include criteria))) * 5.0)%Q
    /\ (0 <= accuracy score <= 5.0)%Q
    /\ (0 <= coverage score <= 5.0)%Q.
Proof.
  intros draft criteria fact_checks. eexists. split.
  - apply score_report_unfold.
  - cbn [calculate_overall accuracy coverage]. repeat split; try reflexivity.
    all: try (apply ratio_times5; [apply filter_le_floor1 | apply floor1_pos]).
Qed.

(** C6: the clarity component is 3.0, plus 1.0 when 500 < len(draft) < 5000,
    plus 1.0 when the draft holds more than three ['#'], clamped at 5.0; it
    lies in [3,5]; 200 characters without ['#'] give 3.0 and 1000 characters
    with four ['#'] give 5.0. *)
Theorem score_report_clarity :
  forall draft criteria fact_checks,
  exists score,
    score_report draft criteria fact_checks = Some score
    /\ (clarity_structure score == clarity_spec draft)%Q
    /\ (3.0 <= clarity_structure score <= 5.0)%Q
    /\ (String.length draft = 200 -> Py.count_char "#" draft = 0 ->
        (clarity_structure score == 3.0)%Q)
    /\ (String.length draft = 1000 -> Py.count_char "#" draft = 4 ->
        (clarity_structure score == 5.0)%Q).
Proof.
  intros draft criteria fact_checks. eexists. split.
  - apply score_report_unfold.
  - cbn [calculate_overall clarity_structure].
    pose proof (clarity_steps_spec draft) as E.
    pose proof (clarity_spec_range draft) as R.
    split; [exact E|]. split; [rewrite E; exact R|].
    split; intros Hlen Hcnt; rewrite E; unfold clarity_spec;
      rewrite Hlen, Hcnt; reflexivity.
Qed.

Lemma score_report_clarity_witness :
  (exists score,
      score_report draft200 (_extract_criteria_basic "") [] = Some score
      /\ (clarity_structure score == 3.0)%Q)
  /\ (exists score,
         score_report draft1000 (_extract_criteria_basic "") [] = Some score
         /\ (clarity_structure score == 5.0)%Q).
Proof.
  split.
  - destruct (score_report_clarity draft200 (_extract_criteria_basic "") [])
      as (score & Hs & _ & _ & H200 & _).
    exists score. split; [exact Hs|]. apply H200; vm_compute; reflexivity.
  - destruct (score_report_clarity draft1000 (_extract_criteria_basic "") [])
      as (score & Hs & _ & _ & _ & H1000).
    exists score. split; [exact Hs|]. apply H1000; vm_compute; reflexivity.
Defined.

(** Scenarios 4 and 5 of the spec: two supported fact checks out of four
    give accuracy 2.5, and one covered item out of two gives coverage 2.5. *)
Example ratio_half : (ratio 2 4 * 5.0 == 2.5)%Q /\ (ratio 1 2 * 5.0 == 2.5)%Q.
Proof. split; reflexivity. Qed.

(** ** The fallback claim extractor *)

Lemma rstrip_idem s : Py.rstrip (Py.rstrip s) = Py.rstrip s.
Proof.
  induction s as [|a r IH]; [reflexivity|].
  cbn [Py.rstrip]. destruct (Py.rstrip r) as [|b r'] eqn:E.
  - destruct (Py.isspace a) eqn:Ea; [reflexivity|].
    cbn [Py.rstrip]. rewrite Ea. reflexivity.
  - cbn [Py.rstrip] in *. rewrite IH. reflexivity.
Qed.

Lemma lstrip_head s :
  Py.lstrip s = EmptyString
  \/ exists a r, Py.lstrip s = String a r /\ Py.isspace a = false.
Proof.
  induction s as [|a r IH]; [left; reflexivity|].
  cbn [Py.lstrip]. destruct (Py.isspace a) eqn:Ea; [exact IH|].
  right. exists a, r. split; [reflexivity | exact Ea].
Qed.

Lemma rstrip_keeps_head a r :
  Py.isspace a = false -> exists r', Py.rstrip (String a r) = String a r'.
Proof.
  intros Ea. cbn [Py.rstrip]. destruct (Py.rstrip r) as [|b r'].
  - rewrite Ea. eexists; reflexivity.
  - eexists; reflexivity.
Qed.

Lemma strip_idem s : Py.strip (Py.strip s) = Py.strip s.
Proof.
  unfold Py.strip. destruct (lstrip_head s) as [E | (a & r & E & Ea)].
  - rewrite E. reflexivity.
  - rewrite E. destruct (rstrip_keeps_head a r Ea) as [r' E'].
    rewrite E'. cbn [Py.lstrip]. rewrite Ea. rewrite <- E'.
    apply rstrip_idem.
Qed.

Lemma claim_of_sentence_inv sentence c :
  claim_of_sentence sentence = Some c ->
  claim_text c = Py.strip sentence
  /\ 20 < String.length (claim_text c)
  /\ evidence_needed c = "Web search verification"
  /\ priority c = "medium".
Proof.
  unfold claim_of_sentence.
  destruct (20 <? String.length (Py.strip sentence)) eqn:E; [|discriminate].
  intros [= <-]. cbn. apply Nat.ltb_lt in E. auto.
Qed.

Lemma extract_claims_basic_length draft :
  length (_extract_claims_basic draft) <= 10.
Proof. unfold _extract_claims_basic. rewrite length_take. lia. Qed.

(** C8: the fallback claim extractor returns at most 10 claims; each is a
    trimmed sentence of the draft, longer than 20 characters, with priority
    "medium" and evidence_needed "Web search verification". *)
Theorem extract_claims_basic_bounds :
  forall draft,
    length (_extract_claims_basic draft) <= 10
    /\ Forall (fun c =>
                 20 < String.length (Py.strip (claim_text c))
                 /\ Py.strip (claim_text c) = claim_text c
                 /\ (exists sentence,
                        sentence ∈ take 20 (Py.split_char "." draft)
                        /\ claim_text c = Py.strip sentence)
                 /\ priority c = "medium"
                 /\ evidence_needed c = "Web search verification")
              (_extract_claims_basic draft).
Proof.
  intros draft. split; [apply extract_claims_basic_length|].
  unfold _extract_claims_basic.
  - apply Forall_take, Forall_forall. intros c Hc.
    apply list_elem_of_omap in Hc as (sentence & Hin & Hs).
    apply claim_of_sentence_inv in Hs as (Ht & Hl & He & Hp).
    assert (Hid : Py.strip (claim_text c) = claim_text c)
      by (rewrite Ht; apply strip_idem).
    rewrite Hid. repeat split; auto. exists sentence. auto.
Qed.

(** ** The fallback criteria extractor *)

(** C9: without an API key, [extract_criteria] takes the fallback path, and
    for "Compare the best databases" its goals are exactly the comparison
    goal followed by the best-options goal. *)
Theorem extract_criteria_compare_best :
  forall env,
    no_api_key env = true ->
    extract_criteria env "Compare the best databases"
      = _extract_criteria_basic "Compare the best databases"
    /\ goals (extract_criteria env "Compare the best databases")
       = ["Provide comprehensive comparison";
          "Identify best options with justification"].
Proof.
  intros env Hkey. unfold extract_criteria. rewrite Hkey.
  split; [reflexivity | vm_compute; reflexivity].
Qed.

Lemma extract_criteria_compare_best_witness :
  no_api_key no_credentials = true
  /\ goals (extract_criteria no_credentials "Compare the best databases")
     = ["Provide comprehensive comparison";
        "Identify best options with justification"].
Proof.
  split; [reflexivity|].
  apply (extract_criteria_compare_best no_credentials). reflexivity.
Defined.

(** ** The heuristic fact checker *)

Lemma isspace_lower a : Py.isspace (Py.lower_char a) = Py.isspace a.
Proof. destruct a as [[] [] [] [] [] [] [] []]; reflexivity. Qed.

Lemma flush_nil cur acc : Py.flush cur acc = [] <-> cur = [] /\ acc = [].
Proof.
  destruct cur; cbn; split; try tauto; try discriminate.
  intros [? _]; discriminate.
Qed.

(** Lowercasing maps blanks to blanks and nothing else to a blank, so it
    keeps a text without words without words. *)
Lemma split_ws_aux_lower s :
  forall cur cur', (cur = [] <-> cur' = []) ->
    (Py.split_ws_aux (Py.lower s) cur = [] <-> Py.split_ws_aux s cur' = []).
Proof.
  induction s as [|a r IH]; intros cur cur' Hc; cbn [Py.lower Py.split_ws_aux].
  - rewrite !flush_nil. tauto.
  - rewrite isspace_lower. destruct (Py.isspace a).
    + rewrite !flush_nil. specialize (IH [] []). tauto.
    + apply IH. split; discriminate.
Qed.

Lemma split_ws_lower_nil s :
  Py.split_ws (Py.lower s) = [] <-> Py.split_ws s = [].
Proof. apply split_ws_aux_lower. tauto. Qed.

Lemma word_set_size c :
  has_word c <-> size (word_set (claim_text c)) <> 0.
Proof.
  unfold has_word, word_set. rewrite <- split_ws_lower_nil.
  destruct (Py.split_ws (Py.lower (claim_text c))) as [|w ws].
  - cbn. rewrite size_empty. split; congruence.
  - split; [intros _ | discriminate].
    apply size_non_empty_iff. cbn. set_solver.
Qed.

Lemma count_matches_spec claim_words :
  size claim_words <> 0 ->
  forall srcs n,
    count_matches claim_words srcs n
    = Some (n + length (List.filter (exceeds claim_words) srcs)).
Proof.
  intros Hsz. induction srcs as [|source rest IH]; intros n.
  - cbn. f_equal. lia.
  - cbn [count_matches List.filter]. unfold exceeds at 1. unfold overlap.
    rewrite truediv_pos by exact Hsz. cbn [mbind option_bind].
    rewrite IH. f_equal.
    destruct (Py.lt 0.3 _); cbn [length]; lia.
Qed.

Lemma count_matches_undefined claim_words source rest n :
  size claim_words = 0 ->
  count_matches claim_words (source :: rest) n = None.
Proof.
  intros Hsz. cbn [count_matches]. unfold overlap. rewrite Hsz. reflexivity.
Qed.

(** The verdict policy of [_fact_check_basic] on a claim with a word: the
    checker returns, with "supported"/0.7 for two or more matching sources,
    "insufficient"/0.5 for one and "insufficient"/0.3 for none. *)
Lemma fact_check_basic_policy c srcs :
  has_word c ->
  exists r,
    _fact_check_basic c srcs = Some r
    /\ claim r = claim_text c
    /\ sources r = srcs
    /\ (2 <= matching_sources c srcs ->
        verdict r = "supported" /\ confidence r = 0.7%Q)
    /\ (matching_sources c srcs = 1 ->
        verdict r = "insufficient" /\ confidence r = 0.5%Q)
    /\ (matching_sources c srcs = 0 ->
        verdict r = "insufficient" /\ confidence r = 0.3%Q)
    /\ String.eqb (verdict r) "contradicted" = false.
Proof.
  intros Hw. apply word_set_size in Hw.
  unfold _fact_check_basic, matching_sources.
  rewrite (count_matches_spec _ Hw). cbn [mbind option_bind Nat.add].
  set (m := length _).
  destruct (Nat.leb_spec 2 m) as [E2|E2];
    [|destruct (Nat.eqb_spec m 1) as [E1|E1]];
    (eexists; split; [reflexivity|]); cbn [claim sources verdict confidence];
    repeat split; intros; try reflexivity; lia.
Qed.

(** A result of [_fact_check_basic], whenever there is one, carries one of
    the three fixed confidences. *)
Lemma fact_check_basic_confidence c srcs r :
  _fact_check_basic c srcs = Some r ->
  confidence r = 0.7%Q \/ confidence r = 0.5%Q \/ confidence r = 0.3%Q.
Proof.
  unfold _fact_check_basic.
  destruct (count_matches _ srcs 0) as [m|]; [|discriminate].
  cbn [mbind option_bind].
  destruct (2 <=? m); [|destruct (m =? 1)]; intros [= <-]; cbn; auto.
Qed.

(** C5: at a claim text without any word and a non-empty source list the
    checker divides by the empty word set's size and raises, although no
    source has an overlap ratio above 0.3, where the policy promises
    "insufficient" with confidence 0.3.  The pipeline reaches that point
    when the model extracts a blank claim and the fact-check request then
    fails, and the whole run raises. *)
Theorem fact_check_basic_blank_claim_raises :
  matching_sources blank_claim one_hit = 0
  /\ _fact_check_basic blank_claim one_hit = None
  /\ fact_check_claim flaky_env blank_claim = None
  /\ generate_report flaky_env "Compare the best databases" "Any draft."
     = None.
Proof. repeat split; vm_compute; reflexivity. Qed.

(** C10: on a claim with at least one whitespace-separated word the divisor
    (the size of the claim's lowercased word set) is not zero and
    [_fact_check_basic] returns a result for every source list; a claim
    without a word has divisor zero and the checker raises on every
    non-empty source list. *)
Theorem fact_check_basic_total :
  forall c,
    (has_word c ->
     size (word_set (claim_text c)) <> 0
     /\ forall srcs, exists r, _fact_check_basic c srcs = Some r)
    /\ (~ has_word c ->
        size (word_set (claim_text c)) = 0
        /\ forall source rest, _fact_check_basic c (source :: rest) = None).
Proof.
  intros c. split.
  - intros Hw. split; [apply word_set_size, Hw|].
    intros srcs. destruct (fact_check_basic_policy c srcs Hw) as (r & Hr & _).
    exists r. exact Hr.
  - intros Hw. rewrite word_set_size in Hw.
    assert (Hz : size (word_set (claim_text c)) = 0) by lia.
    split; [exact Hz|]. intros source rest. unfold _fact_check_basic.
    rewrite count_matches_undefined by exact Hz. reflexivity.
Qed.

Lemma fact_check_basic_total_witness :
  size (word_set (claim_text sample_claim)) <> 0
  /\ exists r, _fact_check_basic sample_claim
                 (_mock_search (claim_text sample_claim)) = Some r.
Proof.
  destruct (fact_check_basic_total sample_claim) as [H _].
  destruct H as [Hsz Hall]; [unfold has_word; vm_compute; discriminate|].
  split; [exact Hsz | apply Hall].
Defined.

(** ** The two paths of [fact_check_claim] and [extract_claims] *)

(** C3 fails on the AI path: a reply carrying confidence 7 is stored as is. *)
Lemma fact_check_confidence_unclamped :
  (confidence <$> fact_check_claim overconfident_env sample_claim)
    = Some 7%Q
  /\ (1 < 7)%Q.
Proof. split; reflexivity. Qed.

(** C3, amended: a result of [fact_check_claim] has its confidence in [0,1]
    whenever it comes from the heuristic fallback (no API key, or the AI
    block raised); a result of the AI path carries the confidence of the
    reply, 0.5 when the reply has none, without any clamping. *)
Theorem fact_check_confidence :
  forall env c r,
    fact_check_claim env c = Some r ->
    (ai_reply env c = None -> (0 <= confidence r <= 1)%Q)
    /\ (forall reply,
          ai_reply env c = Some reply ->
          confidence r = default 0.5%Q (reply_confidence reply)).
Proof.
  intros env c r. unfold fact_check_claim, ai_reply.
  destruct (no_api_key env).
  - intros Hr. split; [intros _|discriminate].
    destruct (fact_check_basic_confidence _ _ _ Hr) as [E|[E|E]];
      rewrite E; split; discriminate.
  - destruct (llm_fact_check env c _) as [reply|].
    + intros [= <-]. split; [discriminate|]. intros ? [= <-]. reflexivity.
    + intros Hr. split; [intros _|discriminate].
      destruct (fact_check_basic_confidence _ _ _ Hr) as [E|[E|E]];
        rewrite E; split; discriminate.
Qed.

Lemma fact_check_confidence_witness :
  exists r,
    fact_check_claim no_credentials sample_claim = Some r
    /\ (0 <= confidence r <= 1)%Q.
Proof.
  eexists. split; [vm_compute; reflexivity|].
  apply (fact_check_confidence no_credentials sample_claim);
    vm_compute; reflexivity.
Defined.

(** C4 fails on the AI path: eleven claims in the reply are all returned. *)
Lemma extract_claims_unbounded :
  length (extract_claims verbose_env "Any draft.") = 11.
Proof. reflexivity. Qed.

Lemma generate_report_inv env user_query draft rep :
  generate_report env user_query draft = Some rep ->
  exists fact_checks score,
    mapM (fact_check_claim env) (take 10 (extract_claims env draft))
      = Some fact_checks
    /\ score_report draft (extract_criteria env user_query) fact_checks
       = Some score
    /\ report_score rep = score
    /\ report_criteria rep = extract_criteria env user_query
    /\ report_fact_checks rep = fact_checks
    /\ fixed_draft rep
       = (if Py.lt (overall score) 3.5
          then auto_fix_draft env draft (extract_criteria env user_query)
                              fact_checks
          else draft)
    /\ report_json rep
       = _save_json_report user_query draft (fixed_draft rep)
           (extract_criteria env user_query) fact_checks score
    /\ stages rep
       = ([ExtractCriteria; ExtractClaims; FactCheck; Score]
            ++ (if Py.lt (overall score) 3.5 then [AutoFix] else [])
            ++ [WriteReports])%list.
Proof.
  unfold generate_report.
  destruct (mapM _ _) as [fact_checks|] eqn:Hm; [|discriminate].
  cbn [mbind option_bind].
  destruct (score_report _ _ _) as [score|] eqn:Hs; [|discriminate].
  cbn [mbind option_bind].
  destruct (Py.lt (overall score) 3.5) eqn:Hlt; intros [= <-];
    exists fact_checks, score; rewrite Hlt;
    (split; [reflexivity|]); (split; [exact Hs|]); repeat split; reflexivity.
Qed.

(** C4, amended: the fallback path of [extract_claims] returns at most 10
    claims; the AI path returns the claims of the reply, however many; and
    [generate_report] fact-checks at most the first 10 of either. *)
Theorem extract_claims_cap :
  forall env draft,
    (no_api_key env = true
     \/ llm_claims env (Py.slice_to 3000 draft) = None ->
     extract_claims env draft = _extract_claims_basic draft
     /\ length (extract_claims env draft) <= 10)
    /\ (forall claims,
          no_api_key env = false ->
          llm_claims env (Py.slice_to 3000 draft) = Some claims ->
          extract_claims env draft = claims)
    /\ (forall user_query rep,
          generate_report env user_query draft = Some rep ->
          length (report_fact_checks rep) <= 10).
Proof.
  intros env draft. split; [|split].
  - intros H.
    assert (E : extract_claims env draft = _extract_claims_basic draft).
    { unfold extract_claims. destruct (no_api_key env); [reflexivity|].
      destruct H as [H|H]; [discriminate | rewrite H; reflexivity]. }
    split; [exact E|]. rewrite E.
    apply extract_claims_basic_length.
  - intros claims Hk Hc. unfold extract_claims. rewrite Hk, Hc. reflexivity.
  - intros user_query rep Hr.
    apply generate_report_inv in Hr as (fcs & score & Hm & _ & _ & _ & E & _).
    rewrite E. apply length_mapM in Hm. rewrite <- Hm, length_take. lia.
Qed.

Lemma extract_claims_cap_witness :
  length (extract_claims no_credentials scenario6_draft) <= 10
  /\ extract_claims verbose_env "Any draft." = eleven_claims.
Proof.
  split.
  - apply (extract_claims_cap no_credentials scenario6_draft).
    left. reflexivity.
  - apply (extract_claims_cap verbose_env "Any draft."); reflexivity.
Defined.

(** ** The revision gate *)

Lemma lt_false_of_le x y : (y <= x)%Q -> Py.lt x y = false.
Proof.
  intros H. destruct (Py.lt x y) eqn:E; [|reflexivity].
  apply lt_spec in E. exfalso. eapply Qlt_not_le; eauto.
Qed.

Lemma stages_without_autofix :
  AutoFix ∉ [ExtractCriteria; ExtractClaims; FactCheck; Score; WriteReports].
Proof.
  rewrite !not_elem_of_cons.
  repeat split; try discriminate. apply not_elem_of_nil.
Qed.

Lemma stages_with_autofix :
  AutoFix ∈ [ExtractCriteria; ExtractClaims; FactCheck; Score; AutoFix;
             WriteReports].
Proof. rewrite !elem_of_cons. auto 10. Qed.

(** C7: in a run of [generate_report] the auto-fix stage is entered exactly
    when the overall score is below 3.5; at 3.5 or above (4.0, say) the
    draft is kept as it is and the JSON report has auto_fixed false and
    fixed_draft_length null. *)
Theorem revision_gate :
  forall env user_query draft rep,
    generate_report env user_query draft = Some rep ->
    (AutoFix ∈ stages rep <-> (overall (report_score rep) < 3.5)%Q)
    /\ (AutoFix ∈ stages rep ->
        fixed_draft rep
        = auto_fix_draft env draft (report_criteria rep)
                         (report_fact_checks rep))
    /\ ((3.5 <= overall (report_score rep))%Q ->
        fixed_draft rep = draft
        /\ auto_fixed (report_json rep) = false
        /\ fixed_draft_length (report_json rep) = None)
    /\ ((overall (report_score rep) == 4.0)%Q ->
        fixed_draft rep = draft
        /\ auto_fixed (report_json rep) = false
        /\ fixed_draft_length (report_json rep) = None).
Proof.
  intros env user_query draft rep Hr.
  apply generate_report_inv in Hr
    as (fcs & score & _ & _ & Es & Ec & Ef & Ed & Ej & Et).
  rewrite Es, Ec, Ef.
  assert (Hge : (3.5 <= overall score)%Q ->
                fixed_draft rep = draft
                /\ auto_fixed (report_json rep) = false
                /\ fixed_draft_length (report_json rep) = None).
  { intros Hle. apply lt_false_of_le in Hle.
    rewrite Hle in Ed. rewrite Ej, Ed. cbn. rewrite Hle.
    rewrite String.eqb_refl. auto. }
  assert (Hrun : AutoFix ∈ stages rep <-> Py.lt (overall score) 3.5 = true).
  { rewrite Et. destruct (Py.lt (overall score) 3.5); cbn; split.
    - reflexivity.
    - intros _. apply stages_with_autofix.
    - intros Hin. destruct (stages_without_autofix Hin).
    - discriminate. }
  split; [|split; [|split]].
  - rewrite Hrun. apply lt_spec.
  - intros Hin. apply Hrun in Hin. rewrite Ed, Hin. reflexivity.
  - exact Hge.
  - intros H4. apply Hge. rewrite H4. discriminate.
Qed.

Lemma revision_gate_witness :
  exists rep,
    generate_report scenario6_env "Which database should I use?"
                    scenario6_draft = Some rep
    /\ (overall (report_score rep) == 4.0)%Q
    /\ fixed_draft rep = scenario6_draft
    /\ auto_fixed (report_json rep) = false
    /\ fixed_draft_length (report_json rep) = None.
Proof.
  eexists. split; [vm_compute; reflexivity|].
  split; [vm_compute; reflexivity|].
  apply (revision_gate scenario6_env "Which database should I use?"
                       scenario6_draft);
    vm_compute; reflexivity.
Defined.

(** * Further properties *)

#[local] Set Warnings "-clear-no-such-hyp".

(** ** Ranges of the score *)

Lemma ratio_nonneg a b : 0 < b -> (0 <= ratio a b)%Q.
Proof.
  intros Hb. unfold ratio. apply Qle_shift_div_l.
  - change 0%Q with (inject_Z 0). rewrite <- Zlt_Qlt. lia.
  - rewrite Qmult_0_l. change 0%Q with (inject_Z 0). rewrite <- Zle_Qle. lia.
Qed.

Lemma ratio_zero b : (ratio 0 b == 0)%Q.
Proof. unfold ratio. cbn. unfold Qdiv. apply Qmult_0_l. Qed.


Lemma citations_range n : (0 <= Qmin (ratio n 2) 5.0 <= 5.0)%Q.
Proof.
  split; [|apply Q.le_min_r].
  apply Q.min_glb; [apply ratio_nonneg; lia | discriminate].
Qed.

Lemma url_fold (l : list SearchResult) (X : gset string) :
  fold_left (fun acc source => acc ∪ {[ url source ]}) l X
  = X ∪ list_to_set (map url l).
Proof.
  revert X. induction l as [|s l IH]; intros X; cbn [fold_left map].
  - set_solver.
  - rewrite IH. set_solver.
Qed.

(** The accumulated set is the set of all source URLs. *)
Lemma unique_sources_urls fact_checks :
  unique_sources fact_checks = list_to_set (all_urls fact_checks).
Proof.
  unfold unique_sources, all_urls.
  assert (G : forall X : gset string,
             fold_left
               (fun acc fc =>
                  fold_left (fun acc source => acc ∪ {[ url source ]})
                            (sources fc) acc)
               fact_checks X
             = X ∪ list_to_set
                     (concat (map (fun fc => map url (sources fc))
                                  fact_checks))).
  { induction fact_checks as [|fc l IH]; intros X; cbn [fold_left map concat].
    - set_solver.
    - rewrite IH, url_fold, list_to_set_app_L. set_solver. }
  rewrite G. set_solver.
Qed.

Lemma clarity_steps_range draft :
  (3.0 <= Qmin (clarity_steps draft) 5.0 <= 5.0)%Q.
Proof.
  pose proof (clarity_steps_spec draft) as E.
  pose proof (clarity_spec_range draft) as R.
  rewrite E. exact R.
Qed.

(** X1: the citations component is min(d/2, 5.0) for d the number of
    distinct source URLs over all fact checks, hence within [0,5], and the
    overall score of every report lies within [0.3, 5]. *)
Theorem score_report_ranges :
  forall draft criteria fact_checks,
  exists score,
    score_report draft criteria fact_checks = Some score
    /\ citations_quality score
       = Qmin (ratio (size (list_to_set (all_urls fact_checks)
                              : gset string)) 2) 5.0
    /\ (0 <= citations_quality score <= 5.0)%Q
    /\ (0.3 <= overall score <= 5.0)%Q.
Proof.
  intros draft criteria fact_checks. eexists. split.
  - apply score_report_unfold.
  - cbn [calculate_overall citations_quality overall accuracy coverage
         clarity_structure].
    rewrite unique_sources_urls. split; [reflexivity|].
    pose proof (citations_range
                  (size (list_to_set (all_urls fact_checks) : gset string)))
      as Hq.
    pose proof (clarity_steps_range draft) as Hs.
    pose proof (ratio_times5 _ _
                  (filter_le_floor1
                     (fun fc => String.eqb (verdict fc) "supported")
                     fact_checks)
                  (floor1_pos (length fact_checks))) as Ha.
    pose proof (ratio_times5 _ _
                  (filter_le_floor1
                     (fun item => Py.contains (Py.lower item) (Py.lower draft))
                     (must_include criteria))
                  (floor1_pos (length (must_include criteria)))) as Hc.
    fold (supported_count fact_checks) in Ha.
    fold (covered_count draft (must_include criteria)) in Hc.
    split; [exact Hq|]. lra.
Qed.

(** X2: with no must-include item the coverage is 0 whatever the draft
    covers, and the overall score cannot exceed 3.5. *)
Theorem score_report_no_must_include :
  forall draft criteria fact_checks,
    must_include criteria = [] ->
    exists score,
      score_report draft criteria fact_checks = Some score
      /\ (coverage score == 0)%Q
      /\ (overall score <= 3.5)%Q.
Proof.
  intros draft criteria fact_checks Hm. eexists. split.
  - apply score_report_unfold.
  - cbn [calculate_overall overall accuracy coverage citations_quality
         clarity_structure].
    rewrite Hm. cbn [covered_count List.filter length].
    pose proof (ratio_zero (floor1 0)) as Hz.
    pose proof (citations_range (size (unique_sources fact_checks))) as Hq.
    pose proof (clarity_steps_range draft) as Hs.
    pose proof (ratio_times5 _ _
                  (filter_le_floor1
                     (fun fc => String.eqb (verdict fc) "supported")
                     fact_checks)
                  (floor1_pos (length fact_checks))) as Ha.
    fold (supported_count fact_checks) in Ha.
    split; [rewrite Hz; reflexivity|].
    rewrite Hz. lra.
Qed.

Lemma score_report_no_must_include_witness :
  exists score,
    score_report scenario6_draft
      (_extract_criteria_basic "Compare the best databases") [] = Some score
    /\ (coverage score == 0)%Q
    /\ (overall score <= 3.5)%Q.
Proof.
  apply (score_report_no_must_include scenario6_draft
           (_extract_criteria_basic "Compare the best databases") []).
  reflexivity.
Defined.

(** ** The heuristic checker and its only failure *)

Lemma count_matches_le claim_words srcs :
  forall n m,
    count_matches claim_words srcs n = Some m -> m <= n + length srcs.
Proof.
  induction srcs as [|source rest IH]; intros n m; cbn [count_matches length].
  - intros [= <-]. lia.
  - destruct (overlap claim_words _) as [ov|]; [|discriminate].
    cbn [mbind option_bind]. intros H. apply IH in H.
    destruct (Py.lt 0.3 ov); lia.
Qed.

Lemma fact_check_basic_inv c srcs r :
  _fact_check_basic c srcs = Some r ->
  exists m,
    count_matches (word_set (claim_text c)) srcs 0 = Some m
    /\ claim r = claim_text c
    /\ sources r = srcs
    /\ ((2 <= m /\ verdict r = "supported" /\ confidence r = 0.7%Q)
        \/ (m < 2 /\ verdict r = "insufficient")).
Proof.
  unfold _fact_check_basic.
  destruct (count_matches _ srcs 0) as [m|] eqn:Hm; [|discriminate].
  cbn [mbind option_bind]. exists m. split; [reflexivity|].
  destruct (Nat.leb_spec 2 m) as [E2|E2]; [|destruct (m =? 1)];
    injection H as <-; cbn [claim sources verdict confidence]; auto 10.
Qed.

(** X3: whatever the heuristic checker returns echoes the claim text and
    the source list it was given, its verdict is "supported" or
    "insufficient", and "supported" needs at least two sources: with fewer
    than two search results no claim is ever supported. *)
Theorem fact_check_basic_needs_two_sources :
  forall c srcs r,
    _fact_check_basic c srcs = Some r ->
    claim r = claim_text c
    /\ sources r = srcs
    /\ (verdict r = "supported" \/ verdict r = "insufficient")
    /\ (verdict r = "supported" -> 2 <= length srcs)
    /\ (length srcs < 2 -> verdict r = "insufficient").
Proof.
  intros c srcs r Hr.
  apply fact_check_basic_inv in Hr as (m & Hm & Hc & Hs & Hv).
  apply count_matches_le in Hm. cbn in Hm.
  split; [exact Hc|]. split; [exact Hs|].
  destruct Hv as [(H2 & Hv & _) | (H2 & Hv)]; rewrite Hv.
  - split; [auto|]. split; [intros _; lia | intros Hl; lia].
  - split; [auto|]. split; [discriminate | reflexivity].
Qed.

Lemma fact_check_basic_needs_two_sources_witness :
  exists r,
    _fact_check_basic sample_claim one_hit = Some r
    /\ sources r = one_hit
    /\ verdict r = "insufficient".
Proof.
  eexists. split; [vm_compute; reflexivity|].
  destruct (fact_check_basic_needs_two_sources sample_claim one_hit _
              ltac:(vm_compute; reflexivity))
    as (_ & Hs & _ & _ & Hl).
  split; [exact Hs | apply Hl; vm_compute; lia].
Defined.





Lemma fact_check_claim_echo env c r :
  fact_check_claim env c = Some r ->
  claim r = claim_text c /\ sources r = search env (claim_text c) 3.
Proof.
  unfold fact_check_claim. destruct (no_api_key env).
  - intros Hr. apply fact_check_basic_inv in Hr as (m & _ & Hc & Hs & _).
    auto.
  - destruct (llm_fact_check env c _) as [reply|].
    + intros [= <-]. auto.
    + intros Hr. apply fact_check_basic_inv in Hr as (m & _ & Hc & Hs & _).
      auto.
Qed.

(** X5: the fact checks of a report answer the first ten extracted claims
    position by position: the i-th result carries the text of the i-th
    claim and the search results found for that text. *)
Theorem generate_report_fact_checks_aligned :
  forall env user_query draft rep,
    generate_report env user_query draft = Some rep ->
    length (report_fact_checks rep)
      = Nat.min 10 (length (extract_claims env draft))
    /\ Forall2 (fun c r => claim r = claim_text c
                           /\ sources r = search env (claim_text c) 3)
               (take 10 (extract_claims env draft))
               (report_fact_checks rep).
Proof.
  intros env user_query draft rep Hr.
  apply generate_report_inv in Hr as (fcs & score & Hm & _ & _ & _ & E & _).
  rewrite E. split.
  - apply length_mapM in Hm. rewrite <- Hm. apply length_take.
  - apply mapM_Some_1 in Hm. eapply Forall2_impl; [exact Hm|].
    intros c r Hcr. apply fact_check_claim_echo. exact Hcr.
Qed.

Lemma generate_report_fact_checks_aligned_witness :
  exists rep,
    generate_report scenario6_env "Which database should I use?"
                    scenario6_draft = Some rep
    /\ length (report_fact_checks rep) = 5.
Proof.
  eexists. split; [vm_compute; reflexivity|].
  apply (generate_report_fact_checks_aligned scenario6_env
           "Which database should I use?" scenario6_draft).
  vm_compute. reflexivity.
Defined.

(** ** Running without an API key *)

Lemma split_ws_aux_cur s :
  forall cur, cur <> [] -> Py.split_ws_aux s cur <> [].
Proof.
  induction s as [|a r IH]; intros cur Hc; cbn [Py.split_ws_aux].
  - rewrite flush_nil. tauto.
  - destruct (Py.isspace a).
    + rewrite flush_nil. tauto.
    + apply IH. discriminate.
Qed.

Lemma split_ws_head a r :
  Py.isspace a = false -> Py.split_ws (String a r) <> [].
Proof.
  intros Ha. unfold Py.split_ws. cbn [Py.split_ws_aux]. rewrite Ha.
  apply split_ws_aux_cur. discriminate.
Qed.

Lemma strip_head s :
  Py.strip s = EmptyString
  \/ exists a r, Py.strip s = String a r /\ Py.isspace a = false.
Proof.
  unfold Py.strip. destruct (lstrip_head s) as [E | (a & r & E & Ea)].
  - left. rewrite E. reflexivity.
  - right. rewrite E. destruct (rstrip_keeps_head a r Ea) as [r' E'].
    exists a, r'. auto.
Qed.

Lemma claim_of_sentence_has_word sentence c :
  claim_of_sentence sentence = Some c -> has_word c.
Proof.
  intros H. apply claim_of_sentence_inv in H as (Ht & Hl & _).
  unfold has_word. rewrite Ht in *.
  destruct (strip_head sentence) as [E | (a & r & E & Ea)].
  - rewrite E in Hl. cbn in Hl. lia.
  - rewrite E. apply split_ws_head, Ea.
Qed.

Lemma extract_claims_basic_have_words draft :
  Forall has_word (_extract_claims_basic draft).
Proof.
  unfold _extract_claims_basic. apply Forall_take, Forall_forall.
  intros c Hc. apply list_elem_of_omap in Hc as (sentence & _ & Hs).
  eapply claim_of_sentence_has_word, Hs.
Qed.








(** ** Running without a search provider *)

Lemma append_cons a s t : String a s +:+ t = String a (s +:+ t).
Proof. reflexivity. Qed.

Lemma lower_app s t : Py.lower (s +:+ t) = Py.lower s +:+ Py.lower t.
Proof.
  induction s as [|a s IH]; [reflexivity|].
  rewrite append_cons. cbn [Py.lower]. rewrite IH. reflexivity.
Qed.

Lemma flush_app cur acc : Py.flush cur acc = (Py.flush cur [] ++ acc)%list.
Proof. destruct cur; reflexivity. Qed.

(** Splitting a text at a blank splits its word list. *)
Lemma split_ws_aux_blank b p s :
  Py.isspace b = true ->
  forall cur,
    Py.split_ws_aux (p +:+ String b s) cur
    = (Py.split_ws_aux (p +:+ String b EmptyString) cur
       ++ Py.split_ws s)%list.
Proof.
  intros Hb. induction p as [|a p IH]; intros cur.
  - change (EmptyString +:+ String b s) with (String b s).
    change (EmptyString +:+ String b EmptyString)
      with (String b EmptyString).
    cbn [Py.split_ws_aux]. rewrite Hb. cbn [Py.flush].
    rewrite (flush_app cur (Py.split_ws_aux s [])).
    rewrite (flush_app cur []). rewrite app_nil_r. reflexivity.
  - rewrite !append_cons. cbn [Py.split_ws_aux]. destruct (Py.isspace a).
    + rewrite (flush_app cur (Py.split_ws_aux _ [])).
      rewrite (flush_app cur (Py.split_ws_aux (p +:+ String b EmptyString) [])).
      rewrite IH. rewrite app_assoc. reflexivity.
    + apply IH.
Qed.

Lemma word_set_blank b p s :
  Py.isspace b = true ->
  word_set (p +:+ String b s)
  = word_set (p +:+ String b EmptyString) ∪ word_set s.
Proof.
  intros Hb. unfold word_set. rewrite !lower_app. cbn [Py.lower].
  unfold Py.split_ws. rewrite split_ws_aux_blank
    by (rewrite isspace_lower; exact Hb).
  apply list_to_set_app_L.
Qed.

Lemma lt_ratio_full n : n <> 0 -> Py.lt 0.3 (ratio n n) = true.
Proof.
  intros Hn. apply lt_spec. unfold ratio.
  assert (Hpos : (0 < inject_Z (Z.of_nat n))%Q).
  { change 0%Q with (inject_Z 0). rewrite <- Zlt_Qlt. lia. }
  apply Qlt_shift_div_l; [exact Hpos|]. lra.
Qed.

(** A snippet holding every word of the claim counts as a match. *)
Lemma exceeds_superset claim_words source :
  size claim_words <> 0 ->
  claim_words ⊆ word_set (snippet source) ->
  exceeds claim_words source = true.
Proof.
  intros Hn Hsub. unfold exceeds, overlap.
  assert (E : claim_words ∩ word_set (snippet source) = claim_words)
    by set_solver.
  rewrite E, truediv_pos by exact Hn. apply lt_ratio_full, Hn.
Qed.

Lemma mock_search_matches c :
  has_word c -> matching_sources c (_mock_search (claim_text c)) = 2.
Proof.
  intros Hw. apply word_set_size in Hw. unfold matching_sources, _mock_search.
  cbn [List.filter].
  rewrite !exceeds_superset; [reflexivity | exact Hw | | exact Hw |].
  - cbn [snippet].
    change ("Another source discussing " +:+ claim_text c)
      with ("Another source discussing" +:+ String " " (claim_text c)).
    rewrite word_set_blank by reflexivity. apply union_subseteq_r.
  - cbn [snippet].
    change ("This is a relevant result about " +:+ claim_text c)
      with ("This is a relevant result about"
              +:+ String " " (claim_text c)).
    rewrite word_set_blank by reflexivity. apply union_subseteq_r.
Qed.

Lemma fact_check_basic_mock c :
  has_word c ->
  _fact_check_basic c (_mock_search (claim_text c)) = Some (mock_result c).
Proof.
  intros Hw. pose proof (mock_search_matches c Hw) as Hm.
  apply word_set_size in Hw. unfold _fact_check_basic.
  rewrite (count_matches_spec _ Hw). unfold matching_sources in Hm.
  rewrite Hm. reflexivity.
Qed.

(** X8: against the mock results of an unconfigured [SearchManager] the
    heuristic checker supports every claim that has a word: both mock
    snippets quote the claim text, so the verdict is "supported" with
    confidence 0.7 and two matching sources, whatever the claim says. *)
Theorem mock_search_supports_every_claim :
  forall c,
    has_word c ->
    _fact_check_basic c (_mock_search (claim_text c))
    = Some {| claim := claim_text c;
              verdict := "supported";
              confidence := 0.7%Q;
              rationale := "Found 2 sources with matching content";
              sources := _mock_search (claim_text c) |}.
Proof. intros c Hw. apply fact_check_basic_mock, Hw. Qed.

Lemma mock_search_supports_every_claim_witness :
  (verdict <$> _fact_check_basic sample_claim
                 (_mock_search (claim_text sample_claim)))
  = Some "supported".
Proof.
  rewrite (mock_search_supports_every_claim sample_claim).
  - reflexivity.
  - unfold has_word. vm_compute. discriminate.
Defined.

(** ** Running with no credentials at all *)








(** ** The fallback reviser *)

Lemma append_assoc (a b c : string) : (a +:+ b) +:+ c = a +:+ (b +:+ c).
Proof.
  induction a as [|x a IH]; [reflexivity|].
  rewrite !append_cons, IH. reflexivity.
Qed.

Lemma append_nil_r (a : string) : a +:+ EmptyString = a.
Proof.
  induction a as [|x a IH]; [reflexivity|]. rewrite append_cons, IH.
  reflexivity.
Qed.

Lemma append_length (a b : string) :
  String.length (a +:+ b) = String.length a + String.length b.
Proof.
  induction a as [|x a IH]; [reflexivity|].
  rewrite append_cons. cbn [String.length]. rewrite IH. reflexivity.
Qed.

Lemma strip_prefix_app_l n a r b :
  Py.strip_prefix n a = Some r ->
  Py.strip_prefix n (a +:+ b) = Some (r +:+ b).
Proof.
  revert a. induction n as [|x n IH]; intros a; cbn [Py.strip_prefix].
  - intros [= ->]. reflexivity.
  - destruct a as [|y a]; [discriminate|]. rewrite append_cons.
    destruct (Ascii.eqb x y); [apply IH | discriminate].
Qed.

Lemma strip_prefix_self n b : Py.strip_prefix n (n +:+ b) = Some b.
Proof.
  induction n as [|x n IH]; [destruct b; reflexivity|].
  rewrite append_cons. cbn [Py.strip_prefix].
  rewrite Ascii.eqb_refl. exact IH.
Qed.

Lemma contains_app_l n a b :
  Py.contains n a = true -> Py.contains n (a +:+ b) = true.
Proof.
  induction a as [|x a IH].
  - cbn [Py.contains]. destruct (Py.strip_prefix n EmptyString) eqn:E;
      [|discriminate].
    intros _. destruct n; [|discriminate E].
    destruct b; reflexivity.
  - cbn [Py.contains]. rewrite append_cons. cbn [Py.contains].
    destruct (Py.strip_prefix n (String x a)) eqn:E.
    + intros _. rewrite <- append_cons.
      rewrite (strip_prefix_app_l _ _ _ b E). reflexivity.
    + intros H. rewrite (IH H).
      destruct (Py.strip_prefix n (String x (a +:+ b))); reflexivity.
Qed.

Lemma contains_app_r n a b :
  Py.contains n b = true -> Py.contains n (a +:+ b) = true.
Proof.
  intros H. induction a as [|x a IH]; [exact H|].
  rewrite append_cons. cbn [Py.contains]. rewrite IH.
  destruct (Py.strip_prefix n (String x (a +:+ b))); reflexivity.
Qed.

Lemma contains_prefix n b : Py.contains n (n +:+ b) = true.
Proof.
  destruct (n +:+ b) eqn:E; cbn [Py.contains]; rewrite <- E;
    rewrite strip_prefix_self; reflexivity.
Qed.

Lemma fold_left_extends {A} (g : string -> A -> string) :
  (forall acc x, exists t, g acc x = acc +:+ t) ->
  forall l init, exists t, fold_left g l init = init +:+ t.
Proof.
  intros Hg. induction l as [|x l IH]; intros init; cbn [fold_left].
  - exists EmptyString. rewrite append_nil_r. reflexivity.
  - destruct (Hg init x) as [t1 E1]. destruct (IH (g init x)) as [t2 E2].
    exists (t1 +:+ t2). rewrite E2, E1. apply append_assoc.
Qed.

Lemma fold_left_keeps {A} (g : string -> A -> string) (n : string) :
  (forall acc x, exists t, g acc x = acc +:+ t) ->
  forall l init,
    Py.contains n init = true -> Py.contains n (fold_left g l init) = true.
Proof.
  intros Hg l init H. destruct (fold_left_extends g Hg l init) as [t E].
  rewrite E. apply contains_app_l, H.
Qed.

(** The two loops of [_auto_fix_basic] only append. *)
Lemma warning_step_extends (acc : string) (fc : FactCheckResult) :
  exists t,
    (if String.eqb (verdict fc) "contradicted"
     then acc +:+ Py.newline +:+ "**Note**: The claim '"
            +:+ Py.slice_to 50 (claim fc)
            +:+ "...' may need verification." +:+ Py.newline
     else acc) = acc +:+ t.
Proof.
  destruct (String.eqb (verdict fc) "contradicted").
  - eexists. reflexivity.
  - exists EmptyString. rewrite append_nil_r. reflexivity.
Qed.

Lemma source_step_extends (acc : string) (x : nat * FactCheckResult) :
  exists t,
    (let '(i, fc) := x in
     match sources fc with
     | [] => acc
     | first :: _ =>
         acc +:+ "[" +:+ Py.str_of_nat i +:+ "] " +:+ url first
           +:+ Py.newline
     end) = acc +:+ t.
Proof.
  destruct x as [i fc]. destruct (sources fc).
  - exists EmptyString. rewrite append_nil_r. reflexivity.
  - eexists. reflexivity.
Qed.

Lemma auto_fix_basic_shape draft fact_checks :
  (exists t, _auto_fix_basic draft fact_checks = draft +:+ t)
  /\ Py.contains "## Sources" (_auto_fix_basic draft fact_checks)
     || Py.contains "## References" (_auto_fix_basic draft fact_checks)
     = true.
Proof.
  unfold _auto_fix_basic.
  destruct (fold_left_extends _ warning_step_extends fact_checks draft)
    as [t1 E1].
  rewrite E1.
  destruct (Py.contains "## Sources" (draft +:+ t1)) eqn:Hs;
    [|destruct (Py.contains "## References" (draft +:+ t1)) eqn:Hr];
    cbn [negb andb].
  - split; [exists t1; reflexivity|]. rewrite Hs. reflexivity.
  - split; [exists t1; reflexivity|]. rewrite Hr. apply orb_true_r.
  - set (start := (draft +:+ t1) +:+ Py.newline +:+ Py.newline
                    +:+ "## Sources" +:+ Py.newline).
    destruct (fold_left_extends _ source_step_extends
                (imap (fun i fc => (i + 1, fc)) (take 5 fact_checks)) start)
      as [t2 E2].
    split.
    + rewrite E2. unfold start. eexists.
      rewrite !append_assoc. reflexivity.
    + rewrite (fold_left_keeps _ "## Sources" source_step_extends);
        [reflexivity|].
      unfold start. apply contains_app_r.
      change (Py.newline +:+ Py.newline +:+ "## Sources" +:+ Py.newline)
        with ((Py.newline +:+ Py.newline)
                +:+ ("## Sources" +:+ Py.newline)).
      apply contains_app_r, contains_prefix.
Qed.

(** X10: the fallback reviser only appends: its result starts with the
    draft it was given and always holds a "## Sources" or "## References"
    heading, for every draft and every list of fact checks. *)
Theorem auto_fix_basic_appends :
  forall draft fact_checks,
    (exists t, _auto_fix_basic draft fact_checks = draft +:+ t)
    /\ (Py.contains "## Sources" (_auto_fix_basic draft fact_checks) = true
        \/ Py.contains "## References" (_auto_fix_basic draft fact_checks)
           = true).
Proof.
  intros draft fact_checks.
  destruct (auto_fix_basic_shape draft fact_checks) as [Ht Hc].
  split; [exact Ht|]. apply orb_true_iff. exact Hc.
Qed.

Lemma warning_fold_id (fact_checks : list FactCheckResult) :
  Forall (fun fc => String.eqb (verdict fc) "contradicted" = false)
         fact_checks ->
  forall (init : string),
    fold_left
      (fun fixed fc =>
         if String.eqb (verdict fc) "contradicted"
         then fixed +:+ Py.newline +:+ "**Note**: The claim '"
                +:+ Py.slice_to 50 (claim fc)
                +:+ "...' may need verification." +:+ Py.newline
         else fixed)
      fact_checks init = init.
Proof.
  induction 1 as [|fc l Hfc _ IH]; intros init; cbn [fold_left];
    [reflexivity|].
  rewrite Hfc. apply IH.
Qed.

Lemma auto_fix_basic_fixpoint draft fact_checks :
  Forall (fun fc => String.eqb (verdict fc) "contradicted" = false)
         fact_checks ->
  Py.contains "## Sources" draft || Py.contains "## References" draft
    = true ->
  _auto_fix_basic draft fact_checks = draft.
Proof.
  intros Hv Hc. unfold _auto_fix_basic. rewrite (warning_fold_id _ Hv).
  apply orb_true_iff in Hc as [Hc|Hc]; rewrite Hc; cbn [negb andb];
    [reflexivity|].
  rewrite andb_false_r. reflexivity.
Qed.

(** X11: when no fact check is "contradicted" (the heuristic checker never
    says so) the fallback reviser is idempotent, and it returns unchanged a
    draft that already has a sources or references heading. *)
Theorem auto_fix_basic_idempotent :
  forall draft fact_checks,
    Forall (fun fc => String.eqb (verdict fc) "contradicted" = false)
           fact_checks ->
    _auto_fix_basic (_auto_fix_basic draft fact_checks) fact_checks
      = _auto_fix_basic draft fact_checks
    /\ (Py.contains "## Sources" draft = true
        \/ Py.contains "## References" draft = true ->
        _auto_fix_basic draft fact_checks = draft).
Proof.
  intros draft fact_checks Hv. split.
  - apply auto_fix_basic_fixpoint; [exact Hv|].
    apply (auto_fix_basic_shape draft fact_checks).
  - intros Hc. apply auto_fix_basic_fixpoint; [exact Hv|].
    apply orb_true_iff. exact Hc.
Qed.

Lemma auto_fix_basic_idempotent_witness :
  _auto_fix_basic (_auto_fix_basic scenario6_draft [mock_result sample_claim])
                  [mock_result sample_claim]
  = _auto_fix_basic scenario6_draft [mock_result sample_claim].
Proof.
  apply (auto_fix_basic_idempotent scenario6_draft
           [mock_result sample_claim]).
  repeat constructor.
Defined.

Lemma eqb_append_false (a t : string) :
  String.eqb (a +:+ t) a = false -> 0 < String.length t.
Proof.
  destruct t as [|x t]; [|cbn; lia].
  rewrite append_nil_r, String.eqb_refl. discriminate.
Qed.

(** X12: without an API key a revision never removes text: the fixed
    draft of every report starts with the original draft, and a
    fixed_draft_length that is not null is greater than
    original_draft_length. *)
Theorem revision_without_key_appends :
  forall env user_query draft rep,
    no_api_key env = true ->
    generate_report env user_query draft = Some rep ->
    (exists t, fixed_draft rep = draft +:+ t)
    /\ (forall n,
          fixed_draft_length (report_json rep) = Some n ->
          original_draft_length (report_json rep) < n).
Proof.
  intros env user_query draft rep Hk Hr.
  apply generate_report_inv in Hr
    as (fcs & score & _ & _ & _ & _ & _ & Ed & Ej & _).
  assert (Ht : exists t, fixed_draft rep = draft +:+ t).
  { rewrite Ed. destruct (Py.lt (overall score) 3.5).
    - unfold auto_fix_draft. rewrite Hk.
      apply (auto_fix_basic_shape draft fcs).
    - exists EmptyString. rewrite append_nil_r. reflexivity. }
  split; [exact Ht|]. destruct Ht as [t Et].
  intros n. rewrite Ej. cbn [_save_json_report fixed_draft_length
                             original_draft_length].
  rewrite Et. destruct (String.eqb (draft +:+ t) draft) eqn:E; [discriminate|].
  intros [= <-]. apply eqb_append_false in E. rewrite append_length. lia.
Qed.

Lemma no_credentials_report :
  exists rep,
    generate_report no_credentials "Compare the best databases"
                    scenario6_draft = Some rep.
Proof. eexists. vm_compute. reflexivity. Qed.


Lemma revision_without_key_appends_witness :
  exists rep t,
    generate_report no_credentials "Compare the best databases"
                    scenario6_draft = Some rep
    /\ fixed_draft rep = scenario6_draft +:+ t.
Proof.
  destruct no_credentials_report as [rep Hr].
  destruct (revision_without_key_appends no_credentials
              "Compare the best databases" scenario6_draft rep
              ltac:(reflexivity) Hr) as [[t Ht] _].
  exists rep, t. auto.
Defined.

(** ** Search providers *)

(** X13: the provider is chosen once, by the first credential found in
    the order Tavily, SerpAPI, Bing, Google (Google counting only with both
    its key and its engine id), and the mock results are used only when
    none is set.  There is no failover: a failing request of the chosen
    provider yields no result even if another provider is configured. *)
Theorem search_provider_priority :
  forall os web query num_results,
    let found :=
      SearchManager_search (_detect_available_providers os) web query
                           num_results in
    (is_set (TAVILY_API_KEY os) = true ->
     found = _search_tavily web query num_results
     /\ (tavily_api web query num_results = None -> found = []))
    /\ (is_set (TAVILY_API_KEY os) = false ->
        is_set (SERPAPI_KEY os) = true ->
        found = _search_serpapi web query num_results)
    /\ (is_set (TAVILY_API_KEY os) = false ->
        is_set (SERPAPI_KEY os) = false ->
        is_set (BING_API_KEY os) = true ->
        found = _search_bing web query num_results)
    /\ (is_set (TAVILY_API_KEY os) = false ->
        is_set (SERPAPI_KEY os) = false ->
        is_set (BING_API_KEY os) = false ->
        (is_set (GOOGLE_API_KEY os) && is_set (GOOGLE_CSE_ID os) = true ->
         found = _search_google web query num_results)
        /\ (is_set (GOOGLE_API_KEY os) && is_set (GOOGLE_CSE_ID os) = false ->
            found = _mock_search query)).
Proof.
  intros os web query num_results found. unfold found.
  unfold _detect_available_providers.
  destruct (is_set (TAVILY_API_KEY os)), (is_set (SERPAPI_KEY os)),
    (is_set (BING_API_KEY os)),
    (is_set (GOOGLE_API_KEY os) && is_set (GOOGLE_CSE_ID os));
    cbn [app SearchManager_search];
    repeat split; intros; try discriminate; try reflexivity.
  all: unfold _search_tavily;
    match goal with H : tavily_api _ _ _ = None |- _ => rewrite H end;
    reflexivity.
Qed.


Lemma slice_to_prefix n s : exists t, s = Py.slice_to n s +:+ t.
Proof.
  revert s. induction n as [|n IH]; intros s.
  - exists s. destruct s; reflexivity.
  - destruct s as [|a s]; [exists EmptyString; reflexivity|].
    destruct (IH s) as [t Et]. exists t.
    cbn [Py.slice_to]. rewrite append_cons, <- Et. reflexivity.
Qed.


(** ** The command line *)



(** ** Stripping the code fence *)

Lemma strip_prefix_sound n s r :
  Py.strip_prefix n s = Some r -> s = n +:+ r.
Proof.
  revert s. induction n as [|x n IH]; intros s; cbn [Py.strip_prefix].
  - intros [= ->]. reflexivity.
  - destruct s as [|y s]; [discriminate|].
    destruct (Ascii.eqb x y) eqn:E; [|discriminate].
    apply Ascii.eqb_eq in E as ->. intros H. apply IH in H as ->.
    reflexivity.
Qed.

Lemma string_of_list_app l1 l2 :
  string_of_list_ascii (l1 ++ l2)
  = string_of_list_ascii l1 +:+ string_of_list_ascii l2.
Proof.
  induction l1 as [|a l1 IH]; [reflexivity|].
  cbn [app string_of_list_ascii]. rewrite IH. reflexivity.
Qed.

Lemma split_str_skip sep p rest cur :
  split_str_aux sep (p +:+ rest) (String.length p) cur
  = split_str_aux sep rest 0 cur.
Proof.
  induction p as [|a p IH]; [reflexivity|].
  rewrite append_cons. cbn [String.length split_str_aux]. exact IH.
Qed.

(** The first piece of a split is the text before the first separator. *)
Lemma split_str_first sep s :
  forall cur,
    split_str_aux sep s 0 cur !! 0
    = Some (string_of_list_ascii (rev cur) +:+ before_first sep s).
Proof.
  induction s as [|a r IH]; intros cur.
  - cbn [split_str_aux before_first]. destruct (Py.strip_prefix sep "");
      cbn; rewrite append_nil_r; reflexivity.
  - cbn [split_str_aux before_first].
    destruct (Py.strip_prefix sep (String a r)).
    + cbn. rewrite append_nil_r. reflexivity.
    + rewrite IH. cbn [rev]. rewrite string_of_list_app.
      rewrite append_assoc. reflexivity.
Qed.

(** The second piece, when there is a separator, is the text between the
    first and the second. *)
Lemma split_str_second sep s :
  sep <> EmptyString ->
  forall cur,
    split_str_aux sep s 0 cur !! 1
    = (rest ← after_first sep s; Some (before_first sep rest)).
Proof.
  intros Hsep. induction s as [|a r IH]; intros cur.
  - cbn [split_str_aux after_first].
    destruct sep; [congruence|]. reflexivity.
  - cbn [split_str_aux after_first].
    destruct (Py.strip_prefix sep (String a r)) as [rest|] eqn:E.
    + cbn [lookup list_lookup mbind option_bind].
      apply strip_prefix_sound in E.
      destruct sep as [|x sep']; [congruence|].
      rewrite append_cons in E. injection E as -> ->.
      replace (String.length (String x sep') - 1)
        with (String.length sep') by (cbn [String.length]; lia).
      change (split_str_aux (String x sep') (sep' +:+ rest)
                (String.length sep') [] !! 0
              = Some (before_first (String x sep') rest)).
      rewrite split_str_skip, split_str_first. reflexivity.
    + apply IH.
Qed.

Lemma contains_after_first sep s :
  Py.contains sep s = true -> exists rest, after_first sep s = Some rest.
Proof.
  induction s as [|a r IH]; cbn [Py.contains after_first].
  - destruct (Py.strip_prefix sep ""); [eauto | discriminate].
  - destruct (Py.strip_prefix sep (String a r)); [eauto | exact IH].
Qed.

(** [clean_response] never goes out of range. *)
Lemma clean_response_total text : exists out, clean_response text = Some out.
Proof.
  unfold clean_response, split_str.
  destruct (Py.contains json_fence text) eqn:Hj;
    [|destruct (Py.contains fence text) eqn:Hf].
  - apply contains_after_first in Hj as [rest Hr].
    rewrite split_str_second, Hr by discriminate.
    cbn [mbind option_bind]. rewrite split_str_first.
    cbn [mbind option_bind]. eauto.
  - apply contains_after_first in Hf as [rest Hr].
    rewrite split_str_second, Hr by discriminate.
    cbn [mbind option_bind]. rewrite split_str_first.
    cbn [mbind option_bind]. eauto.
  - eauto.
Qed.

Lemma no_backquote_cons a s :
  no_backquote (String a s) ->
  Ascii.eqb "`" a = false /\ no_backquote s.
Proof.
  unfold no_backquote. cbn [Py.count_char]. rewrite (Ascii.eqb_sym "`" a).
  destruct (Ascii.eqb a "`"); [discriminate|]. auto.
Qed.

Lemma strip_prefix_backquote sep' a s :
  Ascii.eqb "`" a = false ->
  Py.strip_prefix (String "`" sep') (String a s) = None.
Proof. intros H. cbn [Py.strip_prefix]. rewrite H. reflexivity. Qed.

(** A separator starting with a backquote is not found inside a text
    without backquotes. *)
Lemma before_first_scan sep' pre s :
  no_backquote pre ->
  before_first (String "`" sep') (pre +:+ s)
  = pre +:+ before_first (String "`" sep') s.
Proof.
  induction pre as [|a pre IH]; intros Hp; [reflexivity|].
  apply no_backquote_cons in Hp as [Ha Hp]. rewrite !append_cons.
  cbn [before_first]. rewrite (strip_prefix_backquote _ _ _ Ha).
  rewrite (IH Hp). reflexivity.
Qed.

Lemma after_first_scan sep' pre s :
  no_backquote pre ->
  after_first (String "`" sep') (pre +:+ s)
  = after_first (String "`" sep') s.
Proof.
  induction pre as [|a pre IH]; intros Hp; [reflexivity|].
  apply no_backquote_cons in Hp as [Ha Hp]. rewrite append_cons.
  cbn [after_first]. rewrite (strip_prefix_backquote _ _ _ Ha).
  apply IH, Hp.
Qed.

Lemma contains_backquote_free sep' s :
  no_backquote s -> Py.contains (String "`" sep') s = false.
Proof.
  induction s as [|a s IH]; intros Hs; [reflexivity|].
  apply no_backquote_cons in Hs as [Ha Hs].
  cbn [Py.contains]. rewrite (strip_prefix_backquote _ _ _ Ha).
  apply IH, Hs.
Qed.

Lemma after_first_self sep rest :
  after_first sep (sep +:+ rest) = Some rest.
Proof.
  destruct (sep +:+ rest) eqn:E; cbn [after_first]; rewrite <- E;
    rewrite strip_prefix_self; reflexivity.
Qed.

Lemma before_first_self sep rest :
  before_first sep (sep +:+ rest) = EmptyString.
Proof.
  destruct (sep +:+ rest) eqn:E; cbn [before_first]; rewrite <- E;
    rewrite strip_prefix_self; reflexivity.
Qed.

Lemma before_first_nil sep : before_first sep EmptyString = EmptyString.
Proof. cbn. destruct (Py.strip_prefix sep ""); reflexivity. Qed.

(** After a closing fence that is not followed by a backquote, the text
    before the next ["```json"] is empty or starts with that fence. *)
Lemma closing_fence_shape tail :
  Py.strip_prefix "`" tail = None ->
  before_first json_fence (fence +:+ tail) = EmptyString
  \/ exists rest, before_first json_fence (fence +:+ tail) = fence +:+ rest.
Proof.
  intros Ht. destruct tail as [|c t].
  - right. exists EmptyString. reflexivity.
  - assert (Hc : Ascii.eqb "`" c = false).
    { cbn [Py.strip_prefix] in Ht. destruct (Ascii.eqb "`" c);
        [discriminate | reflexivity]. }
    unfold fence, json_fence. rewrite !append_cons.
    change (EmptyString +:+ String c t) with (String c t).
    cbn [before_first].
    destruct (Py.strip_prefix "```json" (String "`" (String "`"
                (String "`" (String c t))))); [left; reflexivity|].
    right. exists (String c (before_first "```json" t)).
    cbn [Py.strip_prefix]. rewrite Hc. reflexivity.
Qed.

(** X16: the fence stripping never goes out of range; a reply without
    backquotes is returned as it is; and from a reply holding
    ["```json"], a body without backquotes and a closing fence it returns
    the trimmed body, dropping what precedes the opening fence and what
    follows the closing one (which must not start with a backquote). *)
Theorem clean_response_fenced :
  (forall text, exists out, clean_response text = Some out)
  /\ (forall text, no_backquote text -> clean_response text = Some text)
  /\ (forall pre body tail,
        no_backquote pre ->
        no_backquote body ->
        Py.strip_prefix "`" tail = None ->
        clean_response (pre +:+ json_fence +:+ body +:+ fence +:+ tail)
        = Some (Py.strip body)).
Proof.
  split; [exact clean_response_total|]. split.
  - intros text Ht. unfold clean_response, json_fence, fence.
    rewrite !contains_backquote_free by exact Ht. reflexivity.
  - intros pre body tail Hp Hb Ht. unfold clean_response, split_str.
    assert (Hc : Py.contains json_fence
                   (pre +:+ json_fence +:+ body +:+ fence +:+ tail) = true)
      by apply contains_app_r, contains_prefix.
    rewrite Hc, split_str_second by discriminate.
    assert (Ha : after_first json_fence
                   (pre +:+ json_fence +:+ body +:+ fence +:+ tail)
                 = Some (body +:+ fence +:+ tail)).
    { unfold json_fence at 1. rewrite after_first_scan by exact Hp.
      apply after_first_self. }
    rewrite Ha. cbn [mbind option_bind]. rewrite split_str_first.
    cbn [mbind option_bind rev string_of_list_ascii].
    do 2 f_equal. change (EmptyString +:+ ?x) with x.
    unfold json_fence at 1. rewrite before_first_scan by exact Hb.
    unfold fence at 1. rewrite before_first_scan by exact Hb.
    destruct (closing_fence_shape tail Ht) as [E | [rest E]];
      fold json_fence; fold fence; rewrite E.
    + rewrite before_first_nil, append_nil_r. reflexivity.
    + rewrite before_first_self, append_nil_r. reflexivity.
Qed.

Lemma clean_response_fenced_witness :
  clean_response ("Here you go: " +:+ json_fence +:+ " [1, 2] " +:+ fence
                    +:+ " Done.")
  = Some "[1, 2]".
Proof.
  destruct clean_response_fenced as (_ & _ & H).
  apply (H "Here you go: " " [1, 2] " " Done."); reflexivity.
Defined.

(** ** Shape of the fallback criteria and claims *)

Lemma span_isword_all s : all_word (fst (Py.span Py.isword s)) = true.
Proof.
  induction s as [|a r IH]; [reflexivity|].
  cbn [Py.span]. destruct (Py.isword a) eqn:Ea; [|reflexivity].
  destruct (Py.span Py.isword r) as [w t]. cbn [fst all_word] in *.
  rewrite Ea, IH. reflexivity.
Qed.

Lemma match_at_word s word len :
  match_at s = Some (word, len) ->
  word <> EmptyString /\ all_word word = true.
Proof.
  unfold match_at. destruct (first_verb trigger_verbs s) as [[v r]|];
    [|discriminate].
  destruct (Py.span Py.isspace r) as [blanks r1].
  pose proof (span_isword_all r1) as Hall.
  destruct (Py.span Py.isword r1) as [w t]. cbn [fst] in Hall.
  destruct ((0 <? String.length blanks) && (0 <? String.length w)) eqn:E;
    [|discriminate].
  intros [= <- _]. split; [|exact Hall].
  apply andb_true_iff in E as [_ E]. apply Nat.ltb_lt in E.
  intros ->. cbn in E. lia.
Qed.

Lemma findall_from_words s :
  forall prev_word skip,
    Forall (fun word => word <> EmptyString /\ all_word word = true)
           (findall_from s prev_word skip).
Proof.
  induction s as [|a r IH]; intros prev_word skip; cbn [findall_from];
    [constructor|].
  destruct skip; [|apply IH].
  destruct prev_word; [apply IH|].
  destruct (match_at (String a r)) as [[word len]|] eqn:E; [|apply IH].
  constructor; [eapply match_at_word, E | apply IH].
Qed.

(** X17: the fallback criteria always have between one and three goals,
    the single default goal exactly when the lowercased query mentions
    none of "compare", "best" and "how"; and each must-include item is one
    non-empty word, made of word characters only. *)
Theorem extract_criteria_basic_shape :
  forall user_query,
    1 <= length (goals (_extract_criteria_basic user_query)) <= 3
    /\ (goals (_extract_criteria_basic user_query)
        = ["Answer the user's question comprehensively"]
        <-> Py.contains "compare" (Py.lower user_query) = false
            /\ Py.contains "best" (Py.lower user_query) = false
            /\ Py.contains "how" (Py.lower user_query) = false)
    /\ Forall (fun item => item <> EmptyString /\ all_word item = true)
              (must_include (_extract_criteria_basic user_query)).
Proof.
  intros user_query. unfold _extract_criteria_basic.
  cbn [goals must_include]. split; [|split].
  - destruct (Py.contains "compare" (Py.lower user_query)),
      (Py.contains "best" (Py.lower user_query)),
      (Py.contains "how" (Py.lower user_query)); cbn; lia.
  - destruct (Py.contains "compare" (Py.lower user_query)),
      (Py.contains "best" (Py.lower user_query)),
      (Py.contains "how" (Py.lower user_query)); cbn;
      split; try discriminate; try tauto;
      intros (? & ? & ?); discriminate.
  - apply findall_from_words.
Qed.

Lemma split_char_pieces c s :
  Forall (fun piece => Py.count_char c piece = 0) (Py.split_char c s).
Proof.
  induction s as [|a r IH]; cbn [Py.split_char].
  - repeat constructor.
  - destruct (Ascii.eqb a c) eqn:E.
    + constructor; [reflexivity | exact IH].
    + destruct (Py.split_char c r) as [|w ws].
      * repeat constructor. cbn [Py.count_char]. rewrite E. reflexivity.
      * inversion IH as [|? ? Hw Hws]; subst. constructor; [|exact Hws].
        cbn [Py.count_char]. rewrite E, Hw. reflexivity.
Qed.

Lemma lstrip_count c s : Py.count_char c (Py.lstrip s) <= Py.count_char c s.
Proof.
  induction s as [|a r IH]; [reflexivity|].
  cbn [Py.lstrip]. destruct (Py.isspace a); [|reflexivity].
  cbn [Py.count_char]. lia.
Qed.

Lemma rstrip_count c s : Py.count_char c (Py.rstrip s) <= Py.count_char c s.
Proof.
  induction s as [|a r IH]; [reflexivity|].
  cbn [Py.rstrip]. destruct (Py.rstrip r) as [|b r'].
  - destruct (Py.isspace a); cbn [Py.count_char]; lia.
  - cbn [Py.count_char] in *. lia.
Qed.

Lemma strip_count c s : Py.count_char c (Py.strip s) <= Py.count_char c s.
Proof.
  unfold Py.strip. pose proof (rstrip_count c (Py.lstrip s)).
  pose proof (lstrip_count c s). lia.
Qed.

(** X18: no claim of the fallback extractor contains a period: the draft
    is cut at every ['.'], so a decimal number or an abbreviation ends the
    claim it stands in; and every such claim has at least one word. *)
Theorem extract_claims_basic_no_period :
  forall draft,
    Forall (fun c => Py.count_char "." (claim_text c) = 0 /\ has_word c)
           (_extract_claims_basic draft).
Proof.
  intros draft. apply Forall_and.
  split; [|apply extract_claims_basic_have_words].
  unfold _extract_claims_basic. apply Forall_take, Forall_forall.
  intros c Hc. apply list_elem_of_omap in Hc as (sentence & Hin & Hs).
  apply claim_of_sentence_inv in Hs as (Ht & _).
  apply (subseteq_take 20) in Hin.
  pose proof (split_char_pieces "." draft) as Hp.
  rewrite Forall_forall in Hp. specialize (Hp _ Hin).
  pose proof (strip_count "." sentence). rewrite Ht. lia.
Qed.

(** ** The overlap threshold and the weight of accuracy *)

Lemma lt_ratio_iff a b :
  b <> 0 -> (Py.lt 0.3 (ratio a b) = true <-> 3 * b < 10 * a).
Proof.
  intros Hb. rewrite lt_spec. unfold ratio.
  assert (Hpos : (0 < inject_Z (Z.of_nat b))%Q).
  { change 0%Q with (inject_Z 0). rewrite <- Zlt_Qlt. lia. }
  assert (Hmul : (0.3 * inject_Z (Z.of_nat b) < inject_Z (Z.of_nat a))%Q
                 <-> 3 * b < 10 * a).
  { unfold Qlt. cbn. lia. }
  rewrite <- Hmul. split.
  - intros H. apply (Qmult_lt_r _ _ _ Hpos) in H.
    eapply Qlt_le_trans; [exact H|].
    unfold Qdiv. rewrite <- Qmult_assoc.
    rewrite (Qmult_comm (/ _)), Qmult_inv_r, Qmult_1_r.
    + apply Qle_refl.
    + intros E. rewrite E in Hpos. discriminate Hpos.
  - intros H. apply Qlt_shift_div_l; assumption.
Qed.

(** X19: a source counts as matching exactly when ten times the number of
    distinct claim words found in its snippet exceeds three times the
    number of distinct claim words, so sharing exactly 30% of them is not
    enough; and a claim with a word is "supported" exactly when at least
    two sources match. *)
Theorem overlap_threshold :
  forall c srcs,
    (forall source,
        exceeds (word_set (claim_text c)) source = true
        <-> 3 * size (word_set (claim_text c))
            < 10 * size (word_set (claim_text c)
                           ∩ word_set (snippet source)))
    /\ (has_word c ->
        exists r,
          _fact_check_basic c srcs = Some r
          /\ (verdict r = "supported" <-> 2 <= matching_sources c srcs)).
Proof.
  intros c srcs. split.
  - intros source. unfold exceeds, overlap.
    destruct (size (word_set (claim_text c))) as [|n] eqn:E.
    + cbn [Py.truediv]. apply size_empty_iff in E.
      assert (E0 : size (word_set (claim_text c)
                           ∩ word_set (snippet source)) = 0).
      { apply size_empty_iff. set_solver. }
      rewrite E0. split; [discriminate | lia].
    + rewrite truediv_pos by lia. apply lt_ratio_iff. lia.
  - intros Hw.
    destruct (fact_check_basic_policy c srcs Hw)
      as (r & Hr & _ & _ & H2 & H1 & H0 & _).
    exists r. split; [exact Hr|]. split.
    + intros Hv.
      destruct (Nat.le_gt_cases 2 (matching_sources c srcs)) as [H|H];
        [exact H|].
      assert (Hm : matching_sources c srcs = 1
                   \/ matching_sources c srcs = 0) by lia.
      destruct Hm as [Hm|Hm]; [apply H1 in Hm | apply H0 in Hm];
        destruct Hm as [Hm _]; rewrite Hm in Hv; discriminate.
    + intros H. apply H2 in H. tauto.
Qed.

Lemma overlap_threshold_witness :
  exists r,
    _fact_check_basic sample_claim (_mock_search (claim_text sample_claim))
      = Some r
    /\ (verdict r = "supported"
        <-> 2 <= matching_sources sample_claim
                   (_mock_search (claim_text sample_claim))).
Proof.
  destruct (overlap_threshold sample_claim
              (_mock_search (claim_text sample_claim))) as [_ H].
  apply H. unfold has_word. vm_compute. discriminate.
Defined.



